(** * UNet3D data loader: fold splitting and input pipelines

    A shallow embedding of
    [TensorFlow/computer_vision/UNet3D/dataset/data_loader.py].

    - Python integers are [Z]; Python lists and one-dimensional numpy
      arrays are [list]s; exceptions are values of [exn] carried by the
      [result] monad.
    - The numpy and TensorFlow calls the loader makes are modelled by
      what those libraries do on the arguments the loader passes
      ([Np], [Tf]).
    - A [tf.data] pipeline is the term of operators that built it
      ([dataset]); the builders run in a state monad ([build]) over the
      devices TensorFlow reports and the dataset objects constructed so
      far. *)

From Stdlib.Strings Require Import Byte.
From stdpp Require Import base list strings pretty gmap.

Local Open Scope Z_scope.

(** ** Exceptions and the error monad *)

(** Why TensorFlow rejects an argument: a required feature is absent
    from the record, a feature is not of the declared kind or size, the
    strings handed to [decode_raw] differ in length, a tensor of
    [values] elements is reshaped to a shape of [requested] elements, or
    a [tf.data] operator is called with a number it does not take. *)
Inductive tf_error : Type :=
  | FeatureRequired (key : string)
  | FeatureMalformed (key : string)
  | DecodeRawLengths
  | ReshapeMismatch (values requested : Z)
  | ShardArguments (num_shards index : Z)
  | ShuffleBufferSize (buffer_size : Z)
  | ParallelCalls (num_parallel_calls : Z)
  | BatchSize (batch_size : Z)
  | PrefetchBufferSize (buffer_size : Z).

Inductive exn : Type :=
  | ValueError (msg : string)
  | IndexError (msg : string)
  | KeyError (key : string)
  | TypeError (msg : string)
  | AttributeError (msg : string)
  | OverflowError (msg : string)
  | AssertionError (msg : string)
  | InvalidArgumentError (why : tf_error).

Inductive result (A : Type) : Type :=
  | Ok (a : A)
  | Raise (e : exn).
Arguments Ok {A} a.
Arguments Raise {A} e.

#[global] Instance result_ret : MRet result := @Ok.
#[global] Instance result_bind : MBind result := λ A B k m,
  match m with
  | Ok a => k a
  | Raise e => Raise e
  end.

(** ** The Python list operations the loader uses *)

Module Py.
Section ListOps.
Context {A : Type}.

Definition len (l : list A) : Z := Z.of_nat (length l).

(** A slice bound: negative bounds count from the end, and every bound
    is clipped to the list. *)
Definition clip (l : list A) (i : Z) : Z :=
  if i <? 0 then Z.max 0 (i + len l) else Z.min i (len l).

(** [l[st:en]] *)
Definition slice (l : list A) (st en : Z) : list A :=
  let s := clip l st in
  let e := clip l en in
  take (Z.to_nat (e - s)) (drop (Z.to_nat s) l).

(** [l[:en]] *)
Definition slice_to (l : list A) (en : Z) : list A := slice l 0 en.

(** [l[st:]] *)
Definition slice_from (l : list A) (st : Z) : list A := slice l st (len l).

(** [l[i]] *)
Definition getitem (l : list A) (i : Z) : result A :=
  let j := if i <? 0 then i + len l else i in
  if (j <? 0) || (len l <=? j) then Raise (IndexError "list index out of range")
  else match l !! Z.to_nat j with
       | Some a => Ok a
       | None => Raise (IndexError "list index out of range")
       end.

(** [k * [v]]: no copies when [k] is not positive. *)
Definition repeat (k : Z) (v : A) : list A := replicate (Z.to_nat k) v.
End ListOps.
End Py.

(** ** numpy: [array_split], [concatenate] *)

Module Np.

Fixpoint cumsum_from (acc : Z) (l : list Z) : list Z :=
  match l with
  | [] => []
  | a :: r => (acc + a) :: cumsum_from (acc + a) r
  end.

(** [numpy.cumsum] *)
Definition cumsum (l : list Z) : list Z := cumsum_from 0 l.

(** The section sizes of [array_split] for an integer section count:
    [[0] + extras * [Neach_section + 1]
         + (Nsections - extras) * [Neach_section]]. *)
Definition section_sizes (Ntotal Nsections : Z) : list Z :=
  let Neach_section := Ntotal `div` Nsections in
  let extras := Ntotal `mod` Nsections in
  [0] ++ Py.repeat extras (Neach_section + 1)
      ++ Py.repeat (Nsections - extras) Neach_section.

Section Arrays.
Context {A : Type}.

(** [numpy.array_split(ary, Nsections)] on a one-dimensional array and
    an integer section count. *)
Definition array_split (ary : list A) (Nsections : Z) : result (list (list A)) :=
  let Ntotal := Py.len ary in
  if Nsections <=? 0 then
    Raise (ValueError "number sections must be larger than 0.")
  else
    let div_points := cumsum (section_sizes Ntotal Nsections) in
    Ok ((λ i : nat,
           let st := div_points !!! i in
           let en := div_points !!! S i in
           Py.slice ary st en) <$> seq 0 (Z.to_nat Nsections)).

(** [numpy.concatenate(arrays)] on a list of one-dimensional arrays. *)
Definition concatenate (arrays : list (list A)) : result (list A) :=
  match arrays with
  | [] => Raise (ValueError "need at least one array to concatenate")
  | _ => Ok (concat arrays)
  end.
End Arrays.
End Np.

(** ** [cross_validation] *)

Definition fold_index_message (fold_idx n_folds : Z) : string :=
  "Fold index has to be [0, n_folds). Received index " +:+ pretty fold_idx
    +:+ " for " +:+ pretty n_folds +:+ " folds".

Section CrossValidation.
Context {A : Type}.

Definition cross_validation (x : list A) (fold_idx n_folds : Z)
  : result (list A * list A) :=
  if (fold_idx <? 0) || (fold_idx >=? n_folds) then
    Raise (ValueError (fold_index_message fold_idx n_folds))
  else
    _folders ← Np.array_split x n_folds;
    train ← Np.concatenate (Py.slice_to _folders fold_idx
                              ++ Py.slice_from _folders (fold_idx + 1));
    held_out ← Py.getitem _folders fold_idx;
    Ok (train, held_out).
End CrossValidation.

(** The lengths of the folds of [N] elements cut in [n]: [N mod n] folds
    of [N / n + 1] elements, then folds of [N / n] elements. *)
Definition fold_sizes (N n : nat) : list nat :=
  replicate (N `mod` n)%nat (N `div` n + 1)%nat ++ replicate (n - N `mod` n)%nat (N `div` n)%nat.

(** Where fold [k] starts in the input. *)
Definition fold_start (N n k : nat) : nat := sum_list (take k (fold_sizes N n)).

(** ** TensorFlow: tensors, [Example] records and the parsing ops *)

Module Tf.

Inductive dtype : Type := tf_string | tf_uint8 | tf_int32 | tf_float32.

#[global] Instance dtype_eq_dec : EqDecision dtype.
Proof. solve_decision. Defined.

(** The elements of a tensor, flattened in row-major order. A
    [tf.string] element is a byte string, a [uint8] element a byte, and
    a [float32] element is carried as its 32-bit pattern. *)
Inductive elements : Type :=
  | Strings (l : list (list Byte.byte))
  | Uint8s (l : list Byte.byte)
  | Int32s (l : list Z)
  | Float32s (l : list Z).

Record tensor : Type := Tensor { shape : list Z; elems : elements }.

Definition dtype_of (t : tensor) : dtype :=
  match elems t with
  | Strings _ => tf_string
  | Uint8s _ => tf_uint8
  | Int32s _ => tf_int32
  | Float32s _ => tf_float32
  end.

Definition num_elements (t : tensor) : Z :=
  match elems t with
  | Strings l => Py.len l
  | Uint8s l => Py.len l
  | Int32s l => Py.len l
  | Float32s l => Py.len l
  end.

Definition shape_size (s : list Z) : Z := foldr Z.mul 1 s.

(** One feature of a [tf.train.Example]. *)
Inductive feature : Type :=
  | bytes_list (value : list (list Byte.byte))
  | float_list (value : list Z)
  | int64_list (value : list Z).

(** A serialized record, as the [Example] message it encodes: the
    features by name. *)
Definition Example : Type := gmap string feature.

Record FixedLenFeature : Type :=
  { fl_shape : list Z; fl_dtype : dtype }.

(** A dense feature without default: the key has to be present, of the
    declared kind, and with as many values as the declared shape. *)
Definition parse_dense (ex : Example) (key : string) (spec : FixedLenFeature)
  : result tensor :=
  match ex !! key with
  | None => Raise (InvalidArgumentError (FeatureRequired key))
  | Some f =>
      match f, fl_dtype spec with
      | bytes_list v, tf_string =>
          if Py.len v =? shape_size (fl_shape spec)
          then Ok (Tensor (fl_shape spec) (Strings v))
          else Raise (InvalidArgumentError (FeatureMalformed key))
      | float_list v, tf_float32 =>
          if Py.len v =? shape_size (fl_shape spec)
          then Ok (Tensor (fl_shape spec) (Float32s v))
          else Raise (InvalidArgumentError (FeatureMalformed key))
      | _, _ => Raise (InvalidArgumentError (FeatureMalformed key))
      end
  end.

(** The features that the record carries are checked against their
    declarations first. *)
Fixpoint validate_present (serialized : Example)
    (features : list (string * FixedLenFeature)) : result unit :=
  match features with
  | [] => Ok tt
  | (key, spec) :: rest =>
      match serialized !! key with
      | Some _ => parse_dense serialized key spec;; validate_present serialized rest
      | None => validate_present serialized rest
      end
  end.

(** Then every declared feature is asked for, and the tensors are
    returned by name. *)
Fixpoint collect_dense (serialized : Example)
    (features : list (string * FixedLenFeature)) : result (gmap string tensor) :=
  match features with
  | [] => Ok ∅
  | (key, spec) :: rest =>
      t ← parse_dense serialized key spec;
      parsed ← collect_dense serialized rest;
      Ok (<[key := t]> parsed)
  end.

(** [tf.io.parse_single_example(serialized, features)]: a feature that
    is not of its declared kind or size is reported before a feature
    that is absent. *)
Definition parse_single_example (serialized : Example)
    (features : list (string * FixedLenFeature)) : result (gmap string tensor) :=
  validate_present serialized features;;
  collect_dense serialized features.

(** [tf.io.decode_raw(input_bytes, tf.uint8)]: every string of the input
    becomes a row of bytes, which adds one dimension; the strings have to
    be of one length. *)
Definition decode_raw_uint8 (input_bytes : tensor) : result tensor :=
  match elems input_bytes with
  | Strings [] => Ok (Tensor (shape input_bytes ++ [0]) (Uint8s []))
  | Strings (s :: rest) =>
      if forallb (λ s', Py.len s' =? Py.len s) rest
      then Ok (Tensor (shape input_bytes ++ [Py.len s]) (Uint8s (concat (s :: rest))))
      else Raise (InvalidArgumentError DecodeRawLengths)
  | _ => Raise (TypeError "input_bytes must be a string tensor")
  end.

(** [tf.reshape(t, shape)] for a fully specified shape. *)
Definition reshape (t : tensor) (s : list Z) : result tensor :=
  if num_elements t =? shape_size s
  then Ok (Tensor s (elems t))
  else Raise (InvalidArgumentError (ReshapeMismatch (num_elements t) (shape_size s))).

End Tf.

(** A parsed dictionary is read with [d[key]]. *)
Definition dict_get {V : Type} (d : gmap string V) (key : string) : result V :=
  match d !! key with
  | Some v => Ok v
  | None => Raise (KeyError key)
  end.

(** ** [tf.data]: datasets as the operators that built them *)

(** Modelled from the spec: the transform objects of [dataset.transforms],
    which this file imports; each is known here by its constructor and
    the arguments the loader passes. *)
Inductive transform : Type :=
  | RandomCrop3D (shape : Z * Z * Z)
  | RandomHorizontalFlip
  | Cast (dtype : Tf.dtype)
  | NormalizeImages
  | RandomBrightnessCorrection
  | OneHotLabels (n_classes : Z)
  | CenterCrop (shape : Z * Z * Z)
  | PadXYZ (shape : option (Z * Z * Z)).

#[global] Instance transform_eq_dec : EqDecision transform.
Proof. solve_decision. Defined.

(** Modelled from the spec: [apply_transforms] and
    [apply_test_transforms] of [dataset.transforms] thread the record
    through each non-null transform in sequence and skip the [None]
    entries; these are the transforms they apply. *)
Definition active (transforms : list (option transform)) : list transform :=
  omap id transforms.

(** Where a transform chain takes the normalisation statistics from: the
    record itself, or the constants of the call (the literals [0.0] and
    [1.0] are written [0] and [1]). *)
Inductive stats : Type :=
  | record_stats
  | constant_stats (mean stdev : Z).

(** The functions handed to [Dataset.map]. *)
Inductive map_func : Type :=
  | parse_func
  | parse_x_func
  | apply_transforms (st : stats) (transforms : list (option transform))
  | apply_test_transforms (transforms : list (option transform)).

(** [tf.data.experimental.AUTOTUNE] *)
Definition AUTOTUNE : Z := -1.

(** The random tensors of the synthetic pipelines, by the call that
    draws them (float literals are written as integers here too). *)
Inductive random_tensor : Type :=
  | random_uniform (shape : list Z) (dtype : Tf.dtype) (minval maxval : Z)
      (seed : Z) (name : string)
  | random_truncated_normal (shape : list Z) (dtype : Tf.dtype) (mean stddev : Z)
      (seed : Z) (name : string).

Inductive dataset : Type :=
  | TFRecordDataset (filenames : list string)
  | from_tensors (tensors : list random_tensor)
  | Shard (num_shards index : Z) (ds : dataset)
  | Cache (ds : dataset)
  | Shuffle (buffer_size seed : Z) (ds : dataset)
  | Repeat (count : option Z) (ds : dataset)
  | Map (f : map_func) (num_parallel_calls : Z) (ds : dataset)
  | Batch (batch_size : Z) (drop_remainder : bool) (ds : dataset)
  | Prefetch (buffer_size : Z) (ds : dataset)
  | PrefetchToDevice (device : string) (ds : dataset).

(** The Python integers a [tf.data] operator can take are the 64-bit
    ones. *)
Definition int64 (z : Z) : bool := (- 2 ^ 63 <=? z) && (z <? 2 ^ 63).

Definition to_int64 (z : Z) : result unit :=
  if int64 z then Ok tt
  else Raise (OverflowError "Python int too large to convert to C long").

Definition require (cond : bool) (why : tf_error) : result unit :=
  if cond then Ok tt else Raise (InvalidArgumentError why).

(** [tf.data.experimental.SHARD_HINT] and [tf.data.UNKNOWN_CARDINALITY] *)
Definition SHARD_HINT : Z := -1.
Definition UNKNOWN_CARDINALITY : Z := -2.

(** What an operator checks of its arguments when it is called: a shard
    index lies below a positive shard count, buffer and batch sizes and
    degrees of parallelism are positive (a prefetch buffer may be empty),
    unless they are the constant that leaves the choice to TensorFlow. *)
Definition check (d : dataset) : result unit :=
  match d with
  | TFRecordDataset _ | from_tensors _ | Cache _ | PrefetchToDevice _ _ => Ok tt
  | Shard num_shards index _ =>
      to_int64 num_shards;; to_int64 index;;
      require ((0 <? num_shards) && (0 <=? index) && (index <? num_shards)
               || (num_shards =? SHARD_HINT))
        (ShardArguments num_shards index)
  | Shuffle buffer_size _ _ =>
      to_int64 buffer_size;;
      require ((0 <? buffer_size) || (buffer_size =? UNKNOWN_CARDINALITY))
        (ShuffleBufferSize buffer_size)
  | Repeat None _ => Ok tt
  | Repeat (Some count) _ => to_int64 count
  | Map _ num_parallel_calls _ =>
      to_int64 num_parallel_calls;;
      require ((0 <? num_parallel_calls) || (num_parallel_calls =? AUTOTUNE))
        (ParallelCalls num_parallel_calls)
  | Batch batch_size _ _ =>
      to_int64 batch_size;;
      require (0 <? batch_size) (BatchSize batch_size)
  | Prefetch buffer_size _ =>
      to_int64 buffer_size;;
      require ((0 <=? buffer_size) || (buffer_size =? AUTOTUNE))
        (PrefetchBufferSize buffer_size)
  end.

(** How often a pipeline runs through the records of its source. *)
Inductive passes : Type :=
  | Times (n : Z)
  | Forever.

(** [repeat(count)] repeats [count] times, and without end when [count]
    is [None] or negative; a dataset without elements stays so. *)
Definition repeat_passes (count : option Z) (p : passes) : passes :=
  match p, count with
  | Times n, Some c => if c <? 0 then (if n =? 0 then Times 0 else Forever) else Times (c * n)
  | Times n, None => if n =? 0 then Times 0 else Forever
  | Forever, Some c => if c =? 0 then Times 0 else Forever
  | Forever, None => Forever
  end.

Fixpoint source_passes (ds : dataset) : passes :=
  match ds with
  | TFRecordDataset _ | from_tensors _ => Times 1
  | Repeat count ds => repeat_passes count (source_passes ds)
  | Shard _ _ ds | Cache ds | Shuffle _ _ ds | Map _ _ ds
  | Batch _ _ ds | Prefetch _ ds | PrefetchToDevice _ ds => source_passes ds
  end.

Record logical_device : Type :=
  { device_name : string; device_type : string }.

(** What the builders can observe and change: the devices TensorFlow
    reports (read only), and the dataset objects constructed so far, the
    oldest first. *)
Record runtime : Type := Runtime
  { logical_devices : list logical_device;
    constructed : list dataset }.

Definition build (A : Type) : Type := runtime → runtime * result A.

#[global] Instance build_ret : MRet build := λ A a rt, (rt, Ok a).
#[global] Instance build_bind : MBind build := λ A B k m rt,
  match m rt with
  | (rt', Ok a) => k a rt'
  | (rt', Raise e) => (rt', Raise e)
  end.

(** A [tf.data] constructor or operator call checks its arguments and
    then makes a dataset object. *)
Definition construct (d : dataset) : build dataset := λ rt,
  match check d with
  | Ok _ => (Runtime (logical_devices rt) (constructed rt ++ [d]), Ok d)
  | Raise e => (rt, Raise e)
  end.

(** [assert cond, msg] *)
Definition py_assert (cond : bool) (msg : string) : build unit := λ rt,
  if cond then (rt, Ok tt) else (rt, Raise (AssertionError msg)).

(** [tf.config.list_logical_devices(kind)] *)
Definition list_logical_devices (kind : string) : build (list logical_device) := λ rt,
  (rt, Ok (filter (λ d, device_type d = kind) (logical_devices rt))).

(** A computation that cannot touch the runtime. *)
Definition lift {A : Type} (r : result A) : build A := λ rt, (rt, r).

(** ** The [Dataset] class *)

Record Params : Type :=
  { worker_id : option Z; num_workers : option Z; augment : bool }.

(** [v if v else d] on an optional integer: [None] and [0] are false. *)
Definition or_default (v : option Z) (d : Z) : Z :=
  match v with
  | Some w => if w =? 0 then d else w
  | None => d
  end.

(** [os.path.join(a, b)] *)
Definition path_join (a b : string) : string :=
  if String.prefix "/" b then b
  else if (String.eqb a "") || (String.eqb (String.substring (String.length a - 1) 1 a) "/")
       then a +:+ b
       else a +:+ "/" +:+ b.

Record Dataset : Type :=
  { _folders : list string;
    _train : list string;
    _eval : list string;
    _pipeline_factor : Z;
    _data_dir : string;
    params : Params;
    _hpu_id : Z;
    _num_hpus : Z;
    _batch_size : Z;
    _seed : Z;
    _xshape : list Z;
    _yshape : list Z }.

(** [Dataset.__init__]; [listdir] is what [os.listdir(data_dir)] returns,
    and [params] is [None] when the caller leaves it at its default:
    reading [params.worker_id] then fails. *)
Definition __init__ (listdir : list string) (data_dir : string)
    (batch_size fold_idx n_folds seed pipeline_factor : Z) (params : option Params)
  : result Dataset :=
  let folders := (λ path, path_join data_dir path) <$> listdir in
  '(train, eval) ← cross_validation folders fold_idx n_folds;
  match params with
  | None => Raise (AttributeError "'NoneType' object has no attribute 'worker_id'")
  | Some params =>
      Ok {| _folders := folders;
            _train := train;
            _eval := eval;
            _pipeline_factor := pipeline_factor;
            _data_dir := data_dir;
            params := params;
            _hpu_id := or_default (worker_id params) 0;
            _num_hpus := or_default (num_workers params) 1;
            _batch_size := batch_size;
            _seed := seed;
            _xshape := [240; 240; 155; 4];
            _yshape := [240; 240; 155] |}
  end.

Section Methods.
Variable self : Dataset.

(** The [features] dictionary, which [parse] and [parse_x] both declare,
    in the order of its keys. *)
Definition features : list (string * Tf.FixedLenFeature) :=
  [ ("X", {| Tf.fl_shape := []; Tf.fl_dtype := Tf.tf_string |});
    ("Y", {| Tf.fl_shape := []; Tf.fl_dtype := Tf.tf_string |});
    ("mean", {| Tf.fl_shape := [4]; Tf.fl_dtype := Tf.tf_float32 |});
    ("stdev", {| Tf.fl_shape := [4]; Tf.fl_dtype := Tf.tf_float32 |}) ].

(** [tf.cast(t, tf.uint8)]: a tensor that is [uint8] already is
    returned as it is; [convert] stands for the conversion of the other
    element types, which [parse] never reaches. *)
Definition cast_uint8 (convert : Tf.tensor → Tf.tensor) (t : Tf.tensor) : Tf.tensor :=
  if decide (Tf.dtype_of t = Tf.tf_uint8) then t else convert t.

Definition parse (convert : Tf.tensor → Tf.tensor) (serialized : Tf.Example)
  : result (Tf.tensor * Tf.tensor * Tf.tensor * Tf.tensor) :=
  parsed_example ← Tf.parse_single_example serialized features;
  raw ← dict_get parsed_example "X";
  x ← Tf.decode_raw_uint8 raw;
  x ← Tf.reshape x (_xshape self);
  let x := cast_uint8 convert x in
  raw ← dict_get parsed_example "Y";
  y ← Tf.decode_raw_uint8 raw;
  y ← Tf.reshape y (_yshape self);
  let y := cast_uint8 convert y in
  mean ← dict_get parsed_example "mean";
  stdev ← dict_get parsed_example "stdev";
  Ok (x, y, mean, stdev).

Definition parse_x (convert : Tf.tensor → Tf.tensor) (serialized : Tf.Example)
  : result (Tf.tensor * Tf.tensor * Tf.tensor) :=
  parsed_example ← Tf.parse_single_example serialized features;
  raw ← dict_get parsed_example "X";
  x ← Tf.decode_raw_uint8 raw;
  x ← Tf.reshape x (_xshape self);
  let x := cast_uint8 convert x in
  mean ← dict_get parsed_example "mean";
  stdev ← dict_get parsed_example "stdev";
  Ok (x, mean, stdev).

(** Dataset prefetching function *)
Definition prefetch (ds : dataset) (buffer_size : Z) : build dataset :=
  hpus ← list_logical_devices "HPU";
  if 0 <? Py.len hpus then
    hpus ← list_logical_devices "HPU";
    hpu ← lift (Py.getitem hpus 0);
    let device := device_name hpu in
    construct (PrefetchToDevice device ds)
  else
    construct (Prefetch buffer_size ds).

Definition train_transforms : list (option transform) :=
  [ Some (RandomCrop3D (128, 128, 128));
    if augment (params self) then Some RandomHorizontalFlip else None;
    Some (Cast Tf.tf_float32);
    Some NormalizeImages;
    if augment (params self) then Some RandomBrightnessCorrection else None;
    Some (OneHotLabels 4) ].

Definition train_fn : build dataset :=
  py_assert (0 <? Py.len (_train self)) "Training data not found.";;
  ds ← construct (TFRecordDataset (_train self));
  ds ← construct (Shard (_num_hpus self) (_hpu_id self) ds);
  ds ← construct (Cache ds);
  ds ← construct (Shuffle (_batch_size self * 8) (_seed self) ds);
  ds ← construct (Repeat None ds);
  ds ← construct (Map parse_func AUTOTUNE ds);
  let transforms := train_transforms in
  ds ← construct (Map (apply_transforms record_stats transforms) AUTOTUNE ds);
  ds ← construct (Batch (_batch_size self) true ds);
  ds ← prefetch ds AUTOTUNE;
  mret ds.

Definition eval_transforms : list (option transform) :=
  [ Some (CenterCrop (224, 224, 155));
    Some (Cast Tf.tf_float32);
    Some NormalizeImages;
    Some (OneHotLabels 4);
    Some (PadXYZ None) ].

Definition eval_fn : build dataset :=
  ds ← construct (TFRecordDataset (_eval self));
  py_assert (0 <? Py.len (_eval self))
    "Evaluation data not found. Did you specify --fold flag?";;
  ds ← construct (Cache ds);
  ds ← construct (Map parse_func AUTOTUNE ds);
  let transforms := eval_transforms in
  ds ← construct (Map (apply_transforms record_stats transforms) AUTOTUNE ds);
  ds ← construct (Batch (_batch_size self) false ds);
  ds ← prefetch ds AUTOTUNE;
  mret ds.

Definition test_transforms : list (option transform) :=
  [ Some (CenterCrop (224, 224, 155));
    Some (Cast Tf.tf_float32);
    Some NormalizeImages;
    Some (PadXYZ (Some (224, 224, 160))) ].

Definition test_fn (count : Z) (drop_remainder : bool) : build dataset :=
  ds ← construct (TFRecordDataset (_eval self));
  py_assert (0 <? Py.len (_eval self))
    "Evaluation data not found. Did you specify --fold flag?";;
  ds ← construct (Repeat (Some count) ds);
  ds ← construct (Map parse_x_func AUTOTUNE ds);
  let transforms := test_transforms in
  ds ← construct (Map (apply_test_transforms transforms) AUTOTUNE ds);
  ds ← construct (Batch (_batch_size self) drop_remainder ds);
  ds ← prefetch ds AUTOTUNE;
  mret ds.

Definition synth_train_transforms : list (option transform) :=
  [ Some (Cast Tf.tf_uint8);
    Some (RandomCrop3D (128, 128, 128));
    if augment (params self) then Some RandomHorizontalFlip else None;
    Some (Cast Tf.tf_float32);
    Some NormalizeImages;
    if augment (params self) then Some RandomBrightnessCorrection else None;
    Some (OneHotLabels 4) ].

(** Synthetic data function for testing *)
Definition synth_train_fn : build dataset :=
  let inputs := random_uniform (_xshape self) Tf.tf_int32 0 255 (_seed self) "synth_inputs" in
  let masks := random_uniform (_yshape self) Tf.tf_int32 0 4 (_seed self) "synth_masks" in
  ds ← construct (from_tensors [inputs; masks]);
  ds ← construct (Repeat None ds);
  let transforms := synth_train_transforms in
  ds ← construct (Map (apply_transforms (constant_stats 0 1) transforms) 1 ds);
  ds ← construct (Batch (_batch_size self) false ds);
  ds ← prefetch ds (_batch_size self);
  mret ds.

(** Synthetic data function for testing *)
Definition synth_predict_fn (count : Z) : build dataset :=
  let inputs := random_truncated_normal [64; 64; 64; 4] Tf.tf_float32 0 1 (_seed self)
                  "synth_inputs" in
  ds ← construct (from_tensors [inputs]);
  ds ← construct (Repeat (Some count) ds);
  ds ← construct (Batch (_batch_size self) false ds);
  ds ← prefetch ds AUTOTUNE;
  mret ds.

Definition train_size : Z := Py.len (_train self).
Definition eval_size : Z := Py.len (_eval self).
Definition test_size : Z := Py.len (_eval self).
End Methods.

(** ** Reading a pipeline *)

(** The dataset a builder returns, if it returns one. *)
Definition built (b : build dataset) (rt : runtime) : option dataset :=
  match (b rt).2 with
  | Ok ds => Some ds
  | Raise _ => None
  end.

(** The runtime after some more dataset objects were constructed. *)
Definition after (rt : runtime) (made : list dataset) : runtime :=
  Runtime (logical_devices rt) (constructed rt ++ made).

(** The stage [Dataset.prefetch] adds: onto the first HPU when TensorFlow
    reports one, into host memory otherwise. *)
Definition prefetched (rt : runtime) (buffer_size : Z) (ds : dataset) : dataset :=
  match filter (λ d, device_type d = "HPU") (logical_devices rt) with
  | hpu :: _ => PrefetchToDevice (device_name hpu) ds
  | [] => Prefetch buffer_size ds
  end.

(** The transforms a pipeline applies to each record, from the source to
    the sink. *)
Fixpoint transform_chain (ds : dataset) : list transform :=
  match ds with
  | TFRecordDataset _ | from_tensors _ => []
  | Map (apply_transforms _ ts) _ ds | Map (apply_test_transforms ts) _ ds =>
      transform_chain ds ++ active ts
  | Shard _ _ ds | Cache ds | Shuffle _ _ ds | Repeat _ ds | Map _ _ ds
  | Batch _ _ ds | Prefetch _ ds | PrefetchToDevice _ ds => transform_chain ds
  end.

(** Whether the records a dataset yields went through [parse] or
    [parse_x]. *)
Fixpoint yields_parsed (ds : dataset) : bool :=
  match ds with
  | TFRecordDataset _ | from_tensors _ => false
  | Map parse_func _ _ | Map parse_x_func _ _ => true
  | Shard _ _ ds | Cache ds | Shuffle _ _ ds | Repeat _ ds | Map _ _ ds
  | Batch _ _ ds | Prefetch _ ds | PrefetchToDevice _ ds => yields_parsed ds
  end.

(** The dataset whose records a pipeline caches (the input of its
    [cache] stage). *)
Fixpoint cache_input (ds : dataset) : option dataset :=
  match ds with
  | TFRecordDataset _ | from_tensors _ => None
  | Cache ds => Some ds
  | Shard _ _ ds | Shuffle _ _ ds | Repeat _ ds | Map _ _ ds
  | Batch _ _ ds | Prefetch _ ds | PrefetchToDevice _ ds => cache_input ds
  end.

(** The training pipeline as the specification words it: the operators
    in the order of [train_fn], with a cache that holds parsed records. *)
Definition train_pipeline_as_specified (self : Dataset) (rt : runtime) : Prop :=
  ∃ ds cached,
    built (train_fn self) rt = Some ds
    ∧ ds = prefetched rt AUTOTUNE
             (Batch (_batch_size self) true
                (Map (apply_transforms record_stats (train_transforms self)) AUTOTUNE
                   (Map parse_func AUTOTUNE
                      (Repeat None
                         (Shuffle (_batch_size self * 8) (_seed self)
                            (Cache
                               (Shard (_num_hpus self) (_hpu_id self)
                                  (TFRecordDataset (_train self)))))))))
    ∧ cache_input ds = Some cached
    ∧ yields_parsed cached = true.

(** The test pipeline as the specification words it: the held-out
    records are run through [count] times. *)
Definition test_repeats_as_specified (self : Dataset) (rt : runtime)
    (count : Z) (drop_remainder : bool) : Prop :=
  ∃ ds,
    built (test_fn self count drop_remainder) rt = Some ds
    ∧ source_passes ds = Times count.

(** The synthetic pipelines as the specification words them: each
    applies the transform chain of the pipeline it stands in for. *)
Definition synth_chains_as_specified (self : Dataset) (rt : runtime) (count : Z) : Prop :=
  transform_chain <$> built (synth_train_fn self) rt
    = transform_chain <$> built (train_fn self) rt
  ∧ transform_chain <$> built (synth_predict_fn self count) rt
    = transform_chain <$> built (test_fn self count false) rt.

(** ** A data directory of five records *)

Definition example_params : Params :=
  {| worker_id := Some 1; num_workers := Some 2; augment := true |}.

Definition example_listdir : list string :=
  [ "volume-0.tfrecord"; "volume-1.tfrecord"; "volume-2.tfrecord";
    "volume-3.tfrecord"; "volume-4.tfrecord" ].

(** The [Dataset] that [__init__] builds from it with the default
    arguments (batch size 2, fold 0 of 5, seed 0). *)
Definition example_dataset : Dataset :=
  {| _folders := [ "/data/volume-0.tfrecord"; "/data/volume-1.tfrecord";
                   "/data/volume-2.tfrecord"; "/data/volume-3.tfrecord";
                   "/data/volume-4.tfrecord" ];
     _train := [ "/data/volume-1.tfrecord"; "/data/volume-2.tfrecord";
                 "/data/volume-3.tfrecord"; "/data/volume-4.tfrecord" ];
     _eval := [ "/data/volume-0.tfrecord" ];
     _pipeline_factor := 1;
     _data_dir := "/data";
     params := example_params;
     _hpu_id := 1;
     _num_hpus := 2;
     _batch_size := 2;
     _seed := 0;
     _xshape := [240; 240; 155; 4];
     _yshape := [240; 240; 155] |}.

(** The [Dataset] of three records when the last of five folds is held
    out: that fold is empty. *)
Definition short_dataset : Dataset :=
  {| _folders := [ "/data/volume-0.tfrecord"; "/data/volume-1.tfrecord";
                   "/data/volume-2.tfrecord" ];
     _train := [ "/data/volume-0.tfrecord"; "/data/volume-1.tfrecord";
                 "/data/volume-2.tfrecord" ];
     _eval := [];
     _pipeline_factor := 1;
     _data_dir := "/data";
     params := example_params;
     _hpu_id := 1;
     _num_hpus := 2;
     _batch_size := 2;
     _seed := 0;
     _xshape := [240; 240; 155; 4];
     _yshape := [240; 240; 155] |}.

(** A host without accelerator, nothing constructed yet. *)
Definition host_only : runtime :=
  Runtime [ {| device_name := "/device:CPU:0"; device_type := "CPU" |} ] [].


(** The record that stores the volume bytes [xb], the label bytes [yb]
    and the two statistics vectors. *)
Definition record_of (xb yb : list Byte.byte) (mean stdev : list Z) : Tf.Example :=
  <["X" := Tf.bytes_list [xb]]>
    (<["Y" := Tf.bytes_list [yb]]>
       (<["mean" := Tf.float_list mean]>
          (<["stdev" := Tf.float_list stdev]> ∅))).

(** A buffer of [n] zero bytes. *)
Definition zeros (n : Z) : list Byte.byte := replicate (Z.to_nat n) Byte.x00.

(** * Properties of the fold splitter *)

(** ** Slices with bounds inside the natural numbers *)

Section SliceFacts.
Context {A : Type}.
Implicit Types l : list A.

Lemma slice_nat l (a b : nat) :
  (a ≤ b)%nat → Py.slice l (Z.of_nat a) (Z.of_nat b) = take (b - a) (drop a l).
Proof.
  intros Hab. unfold Py.slice, Py.clip, Py.len.
  rewrite !(proj2 (Z.ltb_ge _ 0)) by lia.
  destruct (decide (length l ≤ a)%nat) as [Hla|Hla].
  - rewrite !Z.min_r by lia. rewrite Nat2Z.id, Z.sub_diag.
    rewrite (drop_ge l a) by lia. by rewrite !take_nil.
  - rewrite (Z.min_l (Z.of_nat a)) by lia. rewrite Nat2Z.id.
    destruct (decide (b ≤ length l)%nat) as [Hbl|Hbl].
    + rewrite Z.min_l by lia. f_equal. lia.
    + rewrite Z.min_r by lia.
      rewrite !take_ge; [done| |]; rewrite length_drop; lia.
Qed.

Lemma slice_to_nat l (k : nat) : Py.slice_to l (Z.of_nat k) = take k l.
Proof.
  unfold Py.slice_to. change 0 with (Z.of_nat 0).
  rewrite (slice_nat l 0 k) by lia.
  rewrite drop_0. f_equal. lia.
Qed.

Lemma slice_from_nat l (k : nat) : Py.slice_from l (Z.of_nat k) = drop k l.
Proof.
  unfold Py.slice_from, Py.len.
  destruct (decide (k ≤ length l)%nat) as [Hk|Hk].
  - rewrite slice_nat by lia. apply take_ge. rewrite length_drop. lia.
  - unfold Py.slice, Py.clip, Py.len.
    rewrite !(proj2 (Z.ltb_ge _ 0)) by lia.
    rewrite Z.min_id, Z.min_r, Z.sub_diag by lia.
    rewrite !drop_ge by lia. by rewrite take_nil.
Qed.

Lemma getitem_nat l (i : nat) a :
  l !! i = Some a → Py.getitem l (Z.of_nat i) = Ok a.
Proof.
  intros Hi. pose proof (lookup_lt_Some _ _ _ Hi) as Hlt.
  unfold Py.getitem, Py.len.
  rewrite !(proj2 (Z.ltb_ge (Z.of_nat i) 0)) by lia.
  rewrite (proj2 (Z.leb_gt _ _)) by lia. simpl.
  by rewrite Nat2Z.id, Hi.
Qed.
End SliceFacts.

(** ** Cutting a list into consecutive pieces

    [reshape sizes l] cuts [l] into pieces whose lengths are [sizes], one
    after the other. *)

Section Pieces.
Context {A : Type}.
Implicit Types (l : list A) (sizes : list nat).

Lemma concat_reshape sizes l : concat (reshape sizes l) = take (sum_list sizes) l.
Proof.
  revert l; induction sizes as [|s r IH]; intros l; simpl.
  - by rewrite take_0.
  - by rewrite IH, take_take_drop.
Qed.

Lemma take_reshape k sizes l : take k (reshape sizes l) = reshape (take k sizes) l.
Proof.
  revert sizes l; induction k as [|k IH]; intros [|s r] l; simpl; auto.
  by rewrite IH.
Qed.

Lemma drop_reshape k sizes l :
  drop k (reshape sizes l) = reshape (drop k sizes) (drop (sum_list (take k sizes)) l).
Proof.
  revert sizes l; induction k as [|k IH]; intros [|s r] l; simpl; auto.
  by rewrite IH, drop_drop.
Qed.

Lemma lookup_reshape i sizes l :
  reshape sizes l !! i
  = (λ s, take s (drop (sum_list (take i sizes)) l)) <$> sizes !! i.
Proof.
  revert sizes l; induction i as [|i IH]; intros [|s r] l; simpl; auto.
  by rewrite IH, drop_drop.
Qed.

Lemma lengths_reshape sizes l :
  sum_list sizes = length l → length <$> reshape sizes l = sizes.
Proof.
  revert l; induction sizes as [|s r IH]; intros l Hsum; simpl in *; [done|].
  rewrite length_take, IH by (rewrite length_drop; lia). f_equal. lia.
Qed.

(** The loop of [array_split] over the division points cuts the same
    pieces. *)
Lemma split_loop_reshape sizes (off : nat) l :
  (λ i : nat,
     Py.slice l ((Z.of_nat off :: Np.cumsum_from (Z.of_nat off) (Z.of_nat <$> sizes)) !!! i)
                ((Z.of_nat off :: Np.cumsum_from (Z.of_nat off) (Z.of_nat <$> sizes)) !!! S i))
    <$> seq 0 (length sizes)
  = reshape sizes (drop off l).
Proof.
  revert off; induction sizes as [|s r IH]; intros off; [done|].
  cbn [length seq fmap list_fmap]. rewrite <- fmap_S_seq, <- list_fmap_compose.
  cbn [Np.cumsum_from reshape]. f_equal.
  - cbn. rewrite <- Nat2Z.inj_add. rewrite slice_nat by lia.
    f_equal. lia.
  - rewrite drop_drop. rewrite <- IH. apply list_fmap_ext.
    intros i k _. cbn. by rewrite <- Nat2Z.inj_add.
Qed.
End Pieces.

(** ** [array_split] cuts the folds of [fold_sizes] *)

Lemma length_fold_sizes N n : (0 < n)%nat → length (fold_sizes N n) = n.
Proof.
  intros Hn. unfold fold_sizes. rewrite length_app, !length_replicate.
  pose proof (Nat.mod_upper_bound N n). lia.
Qed.

Lemma sum_fold_sizes N n : (0 < n)%nat → sum_list (fold_sizes N n) = N.
Proof.
  intros Hn. unfold fold_sizes.
  rewrite sum_list_with_app, !sum_list_replicate.
  pose proof (Nat.mod_upper_bound N n). pose proof (Nat.div_mod_eq N n). nia.
Qed.

Lemma sum_take_S (k : nat) (l : list nat) (s : nat) :
  l !! k = Some s → sum_list (take (S k) l) = (sum_list (take k l) + s)%nat.
Proof.
  revert l; induction k as [|k IH]; intros [|a l] Hk; simplify_eq/=; try lia.
  rewrite (IH l Hk). lia.
Qed.

Lemma sum_take_drop (k : nat) (l : list nat) :
  (sum_list (take k l) + sum_list (drop k l))%nat = sum_list l.
Proof.
  revert l; induction k as [|k IH]; intros [|a l]; simpl; try lia.
  specialize (IH l). lia.
Qed.

(** Folds never grow along the list, and no two differ by more than one
    element. *)
Lemma fold_sizes_balanced N n i j si sj :
  (i ≤ j)%nat →
  fold_sizes N n !! i = Some si → fold_sizes N n !! j = Some sj →
  (sj ≤ si ≤ sj + 1)%nat.
Proof.
  unfold fold_sizes. intros Hij Hi Hj.
  apply lookup_app_Some in Hi as [Hi|[Hi1 Hi]];
    apply lookup_app_Some in Hj as [Hj|[Hj1 Hj]];
    apply lookup_replicate in Hi as [-> Hi2];
    apply lookup_replicate in Hj as [-> Hj2];
    rewrite ?length_replicate in *; lia.
Qed.

Lemma index_in_range (fold_idx n_folds : Z) :
  0 ≤ fold_idx < n_folds → (fold_idx <? 0) || (fold_idx >=? n_folds) = false.
Proof. intros H. apply orb_false_iff. split; [lia|]. rewrite Z.geb_leb. lia. Qed.

Lemma index_out_of_range (fold_idx n_folds : Z) :
  fold_idx < 0 ∨ n_folds ≤ fold_idx → (fold_idx <? 0) || (fold_idx >=? n_folds) = true.
Proof. intros H. apply orb_true_iff. rewrite Z.geb_leb. lia. Qed.

Section SplitFacts.
Context {A : Type}.
Implicit Types x : list A.

Lemma concatenate_nonempty (arrays : list (list A)) :
  (0 < length arrays)%nat → Np.concatenate arrays = Ok (concat arrays).
Proof. destruct arrays; simpl; [lia|done]. Qed.

Lemma section_sizes_nat (N n : nat) :
  (0 < n)%nat →
  Np.section_sizes (Z.of_nat N) (Z.of_nat n) = 0 :: (Z.of_nat <$> fold_sizes N n).
Proof.
  intros Hn. unfold Np.section_sizes, fold_sizes, Py.repeat.
  rewrite <- Nat2Z.inj_div, <- Nat2Z.inj_mod, <- Nat2Z.inj_sub
    by (pose proof (Nat.mod_upper_bound N n); lia).
  rewrite !Nat2Z.id, fmap_app, !fmap_replicate, Nat2Z.inj_add. done.
Qed.

Lemma array_split_reshape x (n : Z) :
  0 < n → Np.array_split x n = Ok (reshape (fold_sizes (length x) (Z.to_nat n)) x).
Proof.
  intros Hn. unfold Np.array_split.
  rewrite (proj2 (Z.leb_gt n 0)) by lia. f_equal.
  destruct (Z_of_nat_complete n) as [m ->]; [lia|].
  unfold Py.len. rewrite Nat2Z.id, section_sizes_nat by lia.
  change (Np.cumsum (0 :: ?l)) with (Z.of_nat 0 :: Np.cumsum_from (Z.of_nat 0) l).
  pose proof (split_loop_reshape (fold_sizes (length x) m) 0 x) as Hloop.
  by rewrite length_fold_sizes, drop_0 in Hloop by lia.
Qed.

(** What [cross_validation] returns when there are at least two folds:
    the held-out fold is the slice of the input from the start of fold
    [fold_idx] to the start of the next one, the training set is what
    comes before followed by what comes after. *)
Lemma cross_validation_closed x (fold_idx n_folds : Z) :
  0 ≤ fold_idx < n_folds → 2 ≤ n_folds →
  let N := length x in
  let a := fold_start N (Z.to_nat n_folds) (Z.to_nat fold_idx) in
  let b := fold_start N (Z.to_nat n_folds) (S (Z.to_nat fold_idx)) in
  cross_validation x fold_idx n_folds
  = Ok (take a x ++ drop b x, take (b - a) (drop a x)).
Proof.
  intros Hf Hn. unfold cross_validation.
  rewrite index_in_range by done.
  rewrite array_split_reshape by lia. cbn [mbind result_bind].
  destruct (Z_of_nat_complete fold_idx) as [k Hk]; [lia|].
  destruct (Z_of_nat_complete n_folds) as [m Hm]; [lia|].
  subst fold_idx n_folds. rewrite !Nat2Z.id.
  set (N := length x). set (a := fold_start N m k). set (b := fold_start N m (S k)).
  change (Z.of_nat k + 1) with (Z.of_nat k + Z.of_nat 1). rewrite <- Nat2Z.inj_add.
  rewrite slice_to_nat, slice_from_nat.
  replace (k + 1)%nat with (S k) by lia.
  set (sizes := fold_sizes N m).
  assert (length sizes = m) as Hlen by (apply length_fold_sizes; lia).
  destruct (lookup_lt_is_Some_2 sizes k) as [s Hs]; [lia|].
  assert (b = (a + s)%nat) as Hb by (apply sum_take_S, Hs).
  assert (sum_list sizes = N) as Hsum by (apply sum_fold_sizes; lia).
  pose proof (sum_take_drop (S k) sizes) as Hrest.
  change (sum_list (take (S k) sizes)) with b in Hrest.
  rewrite take_reshape, drop_reshape.
  change (sum_list (take (S k) sizes)) with b.
  rewrite concatenate_nonempty
    by (rewrite length_app, !length_reshape, length_take, length_drop; lia).
  cbn [mbind result_bind].
  erewrite getitem_nat by (by rewrite lookup_reshape, Hs).
  cbn [mbind result_bind]. f_equal. f_equal.
  - rewrite concat_app, !concat_reshape. f_equal.
    apply take_ge. rewrite length_drop. fold N. lia.
  - change (sum_list (take k sizes)) with a. f_equal. lia.
Qed.

(** With a single fold there is nothing left to concatenate for the
    training set, and [numpy.concatenate] refuses an empty list. *)
Lemma cross_validation_single_fold x :
  cross_validation x 0 1
  = Raise (ValueError "need at least one array to concatenate").
Proof.
  unfold cross_validation. rewrite index_in_range by lia.
  rewrite array_split_reshape by lia. cbn [mbind result_bind].
  change (Z.to_nat 1) with 1%nat.
  unfold fold_sizes. rewrite Nat.mod_1_r, Nat.div_1_r. done.
Qed.
End SplitFacts.

(** ** The two outputs of [cross_validation] *)

Section Partition.
Context {A : Type}.
Implicit Types x train held_out : list A.

Lemma take_middle_drop x (a b : nat) :
  (a ≤ b)%nat → take a x ++ take (b - a) (drop a x) ++ drop b x = x.
Proof.
  intros Hab. rewrite app_assoc, take_take_drop.
  replace (a + (b - a))%nat with b by lia. apply take_drop.
Qed.

(** Whenever [cross_validation] returns, the call was in range with at
    least two folds, and the outputs are the closed form. *)
Lemma cross_validation_Ok_inv x fold_idx n_folds train held_out :
  cross_validation x fold_idx n_folds = Ok (train, held_out) →
  ∃ a b : nat,
    (a ≤ b)%nat ∧ train = take a x ++ drop b x ∧ held_out = take (b - a) (drop a x).
Proof.
  intros Hcv.
  destruct (decide (0 ≤ fold_idx < n_folds)) as [Hin|Hout].
  - destruct (decide (n_folds = 1)) as [->|Hn].
    + assert (fold_idx = 0) as -> by lia.
      by rewrite cross_validation_single_fold in Hcv.
    + rewrite cross_validation_closed in Hcv by lia. simplify_eq.
      eexists _, _. split_and!; [|done..].
      unfold fold_start. destruct (lookup_lt_is_Some_2
        (fold_sizes (length x) (Z.to_nat n_folds)) (Z.to_nat fold_idx)) as [s Hs].
      { rewrite length_fold_sizes; lia. }
      rewrite (sum_take_S _ _ _ Hs). lia.
  - unfold cross_validation in Hcv.
    by rewrite index_out_of_range in Hcv by lia.
Qed.

Lemma cross_validation_Permutation x fold_idx n_folds train held_out :
  cross_validation x fold_idx n_folds = Ok (train, held_out) →
  train ++ held_out ≡ₚ x.
Proof.
  intros (a & b & Hab & -> & ->)%cross_validation_Ok_inv.
  rewrite <- (take_middle_drop x a b Hab) at 4.
  rewrite <- app_assoc. f_equiv. apply Permutation_app_comm.
Qed.

(** What follows from the two outputs being a rearrangement of the
    input. *)
Lemma rearranged_facts x train held_out :
  train ++ held_out ≡ₚ x →
  Py.len held_out + Py.len train = Py.len x
  ∧ train ++ held_out ≡ₚ x
  ∧ (∀ p, p ∈ x ↔ p ∈ train ∨ p ∈ held_out)
  ∧ (NoDup x → train ## held_out).
Proof.
  intros Hperm. split_and!.
  - apply Permutation_length in Hperm. rewrite length_app in Hperm.
    unfold Py.len. lia.
  - done.
  - intros p. by rewrite <- Hperm, elem_of_app.
  - intros Hx. rewrite <- Hperm in Hx. apply NoDup_app in Hx as (_ & Hx & _).
    intros p Hp Hq. by apply (Hx p).
Qed.
End Partition.

(** * The claims about the fold splitter *)

(** C1 (as amended). For every input array of N paths and every fold
    index with [0 <= fold_idx < n_folds], when there are at least two
    folds, [cross_validation] returns a pair (train, held-out) with
    [|held_out| + |train| = N]; the two together are a rearrangement of
    the input, so that every path of the input is in one of them and
    nothing else is; and they are disjoint when the paths of the input
    are pairwise distinct. *)
Theorem cross_validation_partition {A : Type} (x : list A) (fold_idx n_folds : Z) :
  0 ≤ fold_idx < n_folds → 2 ≤ n_folds →
  ∃ train held_out,
    cross_validation x fold_idx n_folds = Ok (train, held_out)
    ∧ Py.len held_out + Py.len train = Py.len x
    ∧ train ++ held_out ≡ₚ x
    ∧ (∀ p, p ∈ x ↔ p ∈ train ∨ p ∈ held_out)
    ∧ (NoDup x → train ## held_out).
Proof.
  intros Hf Hn. eexists _, _. split; [by apply cross_validation_closed|].
  apply rearranged_facts.
  by apply (cross_validation_Permutation x fold_idx n_folds), cross_validation_closed.
Qed.

Lemma cross_validation_partition_witness :
  ∃ train held_out,
    cross_validation ["/data/a"; "/data/b"; "/data/c"; "/data/d"; "/data/e"] 1 2
    = Ok (train, held_out)
    ∧ Py.len held_out + Py.len train
      = Py.len ["/data/a"; "/data/b"; "/data/c"; "/data/d"; "/data/e"]
    ∧ train ++ held_out ≡ₚ ["/data/a"; "/data/b"; "/data/c"; "/data/d"; "/data/e"]
    ∧ (∀ p, p ∈ ["/data/a"; "/data/b"; "/data/c"; "/data/d"; "/data/e"]
            ↔ p ∈ train ∨ p ∈ held_out)
    ∧ (NoDup ["/data/a"; "/data/b"; "/data/c"; "/data/d"; "/data/e"]
       → train ## held_out).
Proof. apply (cross_validation_partition _ 1 2); lia. Defined.

(** C1 as stated fails on an array that lists a path twice: the two
    outputs share it. *)
Lemma cross_validation_shared_path :
  ¬ ∃ train held_out,
      cross_validation ["/data/a"; "/data/a"] 0 2 = Ok (train, held_out)
      ∧ Py.len held_out + Py.len train = Py.len ["/data/a"; "/data/a"]
      ∧ train ## held_out
      ∧ (∀ p, p ∈ ["/data/a"; "/data/a"] ↔ p ∈ train ∨ p ∈ held_out).
Proof.
  intros (train & held_out & Hcv & _ & Hdisj & _).
  vm_compute in Hcv. simplify_eq.
  apply (Hdisj "/data/a"); constructor.
Qed.

(** C2. For every input array and every fold index outside
    [0, n_folds), [cross_validation] raises [ValueError] with the message
    that names the index and the fold count, and returns nothing. *)
Theorem cross_validation_index_error {A : Type} (x : list A) (fold_idx n_folds : Z) :
  fold_idx < 0 ∨ n_folds ≤ fold_idx →
  cross_validation x fold_idx n_folds
  = Raise (ValueError (fold_index_message fold_idx n_folds)).
Proof.
  intros Hout. unfold cross_validation. by rewrite index_out_of_range.
Qed.

Lemma cross_validation_index_error_witness :
  cross_validation ["/data/a"; "/data/b"] 5 5
  = Raise (ValueError "Fold index has to be [0, n_folds). Received index 5 for 5 folds")
  ∧ cross_validation ["/data/a"; "/data/b"] (-1) 5
    = Raise (ValueError "Fold index has to be [0, n_folds). Received index -1 for 5 folds").
Proof.
  split.
  - apply (cross_validation_index_error ["/data/a"; "/data/b"] 5 5). lia.
  - apply (cross_validation_index_error ["/data/a"; "/data/b"] (-1) 5). lia.
Defined.

(** C3. For every input and every fold count of at least one,
    [cross_validation] cuts the input into [n_folds] contiguous folds
    (line 38) whose concatenation is the input, whose sizes never grow
    along the list and differ by at most one. With two folds or more it
    returns fold [fold_idx] as the held-out set and the concatenation of
    the others as the training set: ten elements in three folds give the
    sizes 4, 3, 3; ten elements in five folds with [fold_idx = 0] give
    the first two as held-out set and the other eight, in their order,
    as training set. With the one fold of [n_folds = 1], which is the
    whole input, it returns nothing: line 40 hands [numpy.concatenate]
    an empty list of folds, and that raises [ValueError]. *)
Theorem cross_validation_folds {A : Type} (x : list A) (n_folds : Z) :
  0 < n_folds →
  ∃ folds,
    Np.array_split x n_folds = Ok folds
    ∧ Py.len folds = n_folds
    ∧ concat folds = x
    ∧ (∀ (i j : nat) ci cj,
         (i ≤ j)%nat → folds !! i = Some ci → folds !! j = Some cj →
         (length cj ≤ length ci ≤ length cj + 1)%nat)
    ∧ (∀ fold_idx held_out,
         0 ≤ fold_idx < n_folds → 2 ≤ n_folds →
         folds !! Z.to_nat fold_idx = Some held_out →
         cross_validation x fold_idx n_folds
         = Ok (concat (take (Z.to_nat fold_idx) folds ++ drop (S (Z.to_nat fold_idx)) folds),
               held_out))
    ∧ (length x = 10%nat → n_folds = 3 → length <$> folds = [4; 3; 3]%nat)
    ∧ (length x = 10%nat → n_folds = 5 →
       cross_validation x 0 n_folds = Ok (drop 2 x, take 2 x))
    ∧ (n_folds = 1 →
       folds = [x]
       ∧ cross_validation x 0 n_folds
         = Raise (ValueError "need at least one array to concatenate")).
Proof.
  intros Hn. eexists. split; [by apply array_split_reshape|].
  set (sizes := fold_sizes (length x) (Z.to_nat n_folds)).
  assert (length sizes = Z.to_nat n_folds) as Hlen by (apply length_fold_sizes; lia).
  assert (sum_list sizes = length x) as Hsum by (apply sum_fold_sizes; lia).
  assert (length <$> reshape sizes x = sizes) as Hsizes by by apply lengths_reshape.
  split_and!.
  - unfold Py.len. rewrite length_reshape. lia.
  - rewrite concat_reshape, Hsum. by apply take_ge.
  - intros i j ci cj Hij Hi Hj.
    apply (fold_sizes_balanced (length x) (Z.to_nat n_folds) i j); [done|..];
      fold sizes; rewrite <- Hsizes, list_lookup_fmap; [by rewrite Hi|by rewrite Hj].
  - intros fold_idx held_out Hf Hn2 Hheld.
    rewrite cross_validation_closed by done. cbv zeta. fold sizes.
    rewrite lookup_reshape in Hheld.
    destruct (sizes !! Z.to_nat fold_idx) as [s|] eqn:Hs; [|done].
    simpl in Hheld. injection Hheld as <-. unfold fold_start. fold sizes.
    rewrite (sum_take_S _ _ _ Hs).
    rewrite concat_app, take_reshape, drop_reshape, !concat_reshape.
    rewrite (sum_take_S _ _ _ Hs).
    pose proof (sum_take_drop (S (Z.to_nat fold_idx)) sizes) as Hrest.
    rewrite (sum_take_S _ _ _ Hs) in Hrest.
    f_equal. f_equal; [f_equal|f_equal; lia].
    symmetry. apply take_ge. rewrite length_drop. lia.
  - intros Hx ->. rewrite Hsizes. unfold sizes. by rewrite Hx.
  - intros Hx ->. rewrite cross_validation_closed by lia. cbv zeta.
    by rewrite Hx.
  - intros Hone. split; [|rewrite Hone; apply cross_validation_single_fold].
    destruct sizes as [|s [|? ?]] eqn:Hs; [simpl in Hlen; lia| |simpl in Hlen; lia].
    simpl in Hsum. cbn [reshape]. f_equal. apply take_ge. lia.
Qed.

Lemma cross_validation_folds_witness :
  (∃ folds,
     Np.array_split ["p0"; "p1"; "p2"; "p3"; "p4"; "p5"; "p6"; "p7"; "p8"; "p9"] 3
     = Ok folds
     ∧ length <$> folds = [4; 3; 3]%nat)
  ∧ cross_validation ["p0"; "p1"; "p2"; "p3"; "p4"; "p5"; "p6"; "p7"; "p8"; "p9"] 0 5
    = Ok (["p2"; "p3"; "p4"; "p5"; "p6"; "p7"; "p8"; "p9"], ["p0"; "p1"])
  ∧ (∃ folds,
       Np.array_split ["p0"; "p1"; "p2"] 1 = Ok folds
       ∧ folds = [["p0"; "p1"; "p2"]]
       ∧ cross_validation ["p0"; "p1"; "p2"] 0 1
         = Raise (ValueError "need at least one array to concatenate")).
Proof.
  split; [|split].
  - destruct (cross_validation_folds
                ["p0"; "p1"; "p2"; "p3"; "p4"; "p5"; "p6"; "p7"; "p8"; "p9"] 3)
      as (folds & Hsplit & _ & _ & _ & _ & Hsizes & _); [lia|].
    exists folds. split; [exact Hsplit|]. by apply Hsizes.
  - destruct (cross_validation_folds
                ["p0"; "p1"; "p2"; "p3"; "p4"; "p5"; "p6"; "p7"; "p8"; "p9"] 5)
      as (folds & _ & _ & _ & _ & _ & _ & Hcv & _); [lia|].
    by apply Hcv.
  - destruct (cross_validation_folds ["p0"; "p1"; "p2"] 1)
      as (folds & Hsplit & _ & _ & _ & _ & _ & _ & Hone); [lia|].
    destruct (Hone eq_refl) as [Hfolds Hraise].
    exists folds. split; [exact Hsplit|]. split; [exact Hfolds|exact Hraise].
Defined.

(** C9. For every input array and every fold index in [0, n_folds), two
    calls of [cross_validation] on the same input with the same
    parameters end the same way; with two folds or more both return the
    same pair (train, held-out), which is made of slices of the input at
    positions that [N], [n_folds] and [fold_idx] fix. *)
Theorem cross_validation_deterministic {A : Type} (x : list A) (fold_idx n_folds : Z)
    (first second : result (list A * list A)) :
  0 ≤ fold_idx < n_folds →
  cross_validation x fold_idx n_folds = first →
  cross_validation x fold_idx n_folds = second →
  first = second
  ∧ (2 ≤ n_folds →
     ∃ a b : nat,
       a = fold_start (length x) (Z.to_nat n_folds) (Z.to_nat fold_idx)
       ∧ b = fold_start (length x) (Z.to_nat n_folds) (S (Z.to_nat fold_idx))
       ∧ first = Ok (take a x ++ drop b x, take (b - a) (drop a x))
       ∧ second = Ok (take a x ++ drop b x, take (b - a) (drop a x))).
Proof.
  intros Hf <- <-. split; [done|]. intros Hn.
  eexists _, _. split_and!; [done|done|..]; by apply cross_validation_closed.
Qed.

Lemma cross_validation_deterministic_witness :
  cross_validation ["/data/a"; "/data/b"; "/data/c"; "/data/d"; "/data/e"] 1 3
  = Ok (["/data/a"; "/data/b"; "/data/e"], ["/data/c"; "/data/d"]).
Proof.
  apply (cross_validation_deterministic
           ["/data/a"; "/data/b"; "/data/c"; "/data/d"; "/data/e"] 1 3);
    [lia|reflexivity..].
Defined.

(** * The pipelines *)

(** ** Operators whose arguments pass the checks *)

Lemma int64_range (z : Z) : - 2 ^ 63 ≤ z < 2 ^ 63 → to_int64 z = Ok tt.
Proof.
  intros Hz. unfold to_int64, int64.
  by rewrite (proj2 (Z.leb_le _ _)), (proj2 (Z.ltb_lt _ _)) by lia.
Qed.

Lemma check_shard (num_shards index : Z) (ds : dataset) :
  0 ≤ index < num_shards → num_shards < 2 ^ 63 →
  check (Shard num_shards index ds) = Ok tt.
Proof.
  intros Hi Hn. unfold check. rewrite !int64_range by lia. cbn [mbind result_bind].
  rewrite (proj2 (Z.ltb_lt 0 num_shards)), (proj2 (Z.leb_le 0 index)),
    (proj2 (Z.ltb_lt index num_shards)) by lia.
  done.
Qed.

Lemma check_shuffle (buffer_size seed : Z) (ds : dataset) :
  0 < buffer_size < 2 ^ 63 → check (Shuffle buffer_size seed ds) = Ok tt.
Proof.
  intros Hb. unfold check. rewrite int64_range by lia. cbn [mbind result_bind].
  by rewrite (proj2 (Z.ltb_lt 0 buffer_size)) by lia.
Qed.

Lemma check_repeat (count : Z) (ds : dataset) :
  - 2 ^ 63 ≤ count < 2 ^ 63 → check (Repeat (Some count) ds) = Ok tt.
Proof. intros Hc. unfold check. by apply int64_range. Qed.

Lemma check_batch (batch_size : Z) (drop_remainder : bool) (ds : dataset) :
  0 < batch_size < 2 ^ 63 → check (Batch batch_size drop_remainder ds) = Ok tt.
Proof.
  intros Hb. unfold check. rewrite int64_range by lia. cbn [mbind result_bind].
  by rewrite (proj2 (Z.ltb_lt 0 batch_size)) by lia.
Qed.

Lemma check_prefetch (buffer_size : Z) (ds : dataset) :
  -1 ≤ buffer_size < 2 ^ 63 → check (Prefetch buffer_size ds) = Ok tt.
Proof.
  intros Hb. unfold check. rewrite int64_range by lia. cbn [mbind result_bind].
  destruct (decide (buffer_size = -1)) as [->|]; [done|].
  by rewrite (proj2 (Z.leb_le 0 buffer_size)) by lia.
Qed.

Lemma check_prefetched (rt : runtime) (buffer_size : Z) (ds : dataset) :
  -1 ≤ buffer_size < 2 ^ 63 → check (prefetched rt buffer_size ds) = Ok tt.
Proof.
  intros Hb. unfold prefetched. destruct (filter _ _); [|done].
  by apply check_prefetch.
Qed.

(** An operator whose arguments pass adds one dataset object. *)
Lemma bind_construct {B : Type} (d : dataset) (k : dataset → build B) (rt : runtime) :
  check d = Ok tt → (construct d ≫= k) rt = k d (after rt [d]).
Proof. intros Hd. unfold mbind, build_bind, construct. by rewrite Hd. Qed.

Lemma prefetch_run (ds : dataset) (buffer_size : Z) (rt : runtime) :
  check (prefetched rt buffer_size ds) = Ok tt →
  prefetch ds buffer_size rt
  = (after rt [prefetched rt buffer_size ds], Ok (prefetched rt buffer_size ds)).
Proof.
  unfold prefetch, prefetched, list_logical_devices, mbind, build_bind.
  destruct (filter _ (logical_devices rt)) as [|hpu hpus] eqn:Hhpus.
  - intros Hd. change (0 <? Py.len []) with false. cbv iota.
    unfold construct. by rewrite Hd.
  - intros _.
    replace (0 <? Py.len (hpu :: hpus)) with true
      by (symmetry; apply Z.ltb_lt; unfold Py.len; simpl length; lia).
    cbv beta. unfold lift. by rewrite Hhpus.
Qed.

Lemma bind_prefetch {B : Type} (ds : dataset) (buffer_size : Z) (k : dataset → build B)
    (rt : runtime) :
  check (prefetched rt buffer_size ds) = Ok tt →
  (prefetch ds buffer_size ≫= k) rt
  = k (prefetched rt buffer_size ds) (after rt [prefetched rt buffer_size ds]).
Proof.
  intros Hd. unfold mbind, build_bind. by rewrite prefetch_run.
Qed.

Lemma assert_non_empty (paths : list string) :
  paths ≠ [] → (0 <? Py.len paths) = true.
Proof. destruct paths; [done|]. intros _. apply Z.ltb_lt. unfold Py.len. simpl length. lia. Qed.

Lemma bind_assert {B : Type} (msg : string) (k : build B) (rt : runtime) :
  (py_assert true msg;; k) rt = k rt.
Proof. done. Qed.

(** A solver for the checks of the operators a builder calls. *)
Ltac checked :=
  first [ reflexivity
        | apply check_shard; lia
        | apply check_shuffle; lia
        | apply check_repeat; lia
        | apply check_batch; lia
        | apply check_prefetched; unfold AUTOTUNE; lia ].

(** Run a builder through its operator calls. *)
Ltac run_builder :=
  repeat (first [ rewrite bind_construct by checked
                | rewrite bind_prefetch by checked ]; cbv beta).

(** ** Operators whose arguments are refused *)

(** The checks of the operators raise [OverflowError] and
    [InvalidArgumentError] only. *)
Lemma check_raises (d : dataset) (e : exn) :
  check d = Raise e → ∀ msg, e ≠ AssertionError msg.
Proof.
  intros Hd msg ->. revert Hd.
  destruct d as [| | | | |[count|]| | | |]; unfold check, to_int64, require;
    repeat (case_match; cbn [mbind result_bind mret result_ret]); done.
Qed.

Lemma construct_raises (d : dataset) (rt : runtime) (e : exn) :
  (construct d rt).2 = Raise e → ∀ msg, e ≠ AssertionError msg.
Proof.
  unfold construct. destruct (check d) as [[]|e'] eqn:Hd; [done|].
  intros [= <-]. by apply (check_raises d).
Qed.

Lemma prefetch_raises (ds : dataset) (buffer_size : Z) (rt : runtime) (e : exn) :
  (prefetch ds buffer_size rt).2 = Raise e → ∀ msg, e ≠ AssertionError msg.
Proof.
  unfold prefetch, list_logical_devices, mbind, build_bind.
  destruct (filter _ (logical_devices rt)) as [|hpu hpus] eqn:Hhpus.
  - change (0 <? Py.len []) with false. cbv iota. apply construct_raises.
  - replace (0 <? Py.len (hpu :: hpus)) with true
      by (symmetry; apply Z.ltb_lt; unfold Py.len; simpl length; lia).
    cbv beta. unfold lift. rewrite Hhpus. apply construct_raises.
Qed.

(** What a sequence raises, its first part or the rest raised. *)
Lemma bind_raises {A B : Type} (m : build A) (k : A → build B) (rt : runtime) (e : exn) :
  ((m ≫= k) rt).2 = Raise e →
  (m rt).2 = Raise e ∨ ∃ a rt', (k a rt').2 = Raise e.
Proof.
  unfold mbind, build_bind. destruct (m rt) as [rt' [a|e']]; [|intros He; left; cbn in *; congruence].
  intros Hk. right. by exists a, rt'.
Qed.

(** Past its assertion, a builder raises no [AssertionError]. *)
Ltac no_assertion H :=
  repeat (apply bind_raises in H as [H|(? & ? & H)];
          [ first [ by eapply construct_raises in H
                  | by eapply prefetch_raises in H ]
          | cbv beta zeta in H ]);
  discriminate H.

Section Pipelines.
Variable self : Dataset.
Implicit Types (rt : runtime) (ds : dataset).

Lemma train_fn_built rt :
  _train self ≠ [] →
  0 ≤ _hpu_id self < _num_hpus self → _num_hpus self < 2 ^ 63 →
  0 < _batch_size self → _batch_size self * 8 < 2 ^ 63 →
  built (train_fn self) rt
  = Some (prefetched rt AUTOTUNE
            (Batch (_batch_size self) true
               (Map (apply_transforms record_stats (train_transforms self)) AUTOTUNE
                  (Map parse_func AUTOTUNE
                     (Repeat None
                        (Shuffle (_batch_size self * 8) (_seed self)
                           (Cache
                              (Shard (_num_hpus self) (_hpu_id self)
                                 (TFRecordDataset (_train self)))))))))).
Proof.
  intros Htrain Hid Hnum Hbs Hbs8. unfold built, train_fn.
  rewrite (assert_non_empty _ Htrain), bind_assert.
  by run_builder.
Qed.

Lemma test_fn_built count drop_remainder rt :
  _eval self ≠ [] →
  0 < _batch_size self < 2 ^ 63 →
  - 2 ^ 63 ≤ count < 2 ^ 63 →
  built (test_fn self count drop_remainder) rt
  = Some (prefetched rt AUTOTUNE
            (Batch (_batch_size self) drop_remainder
               (Map (apply_test_transforms test_transforms) AUTOTUNE
                  (Map parse_x_func AUTOTUNE
                     (Repeat (Some count)
                        (TFRecordDataset (_eval self))))))).
Proof.
  intros Heval Hbs Hcount. unfold built, test_fn.
  rewrite bind_construct by checked.
  rewrite (assert_non_empty _ Heval), bind_assert.
  by run_builder.
Qed.

Lemma synth_train_fn_built rt :
  0 < _batch_size self < 2 ^ 63 →
  built (synth_train_fn self) rt
  = Some (prefetched rt (_batch_size self)
            (Batch (_batch_size self) false
               (Map (apply_transforms (constant_stats 0 1) (synth_train_transforms self)) 1
                  (Repeat None
                     (from_tensors
                        [ random_uniform (_xshape self) Tf.tf_int32 0 255 (_seed self)
                            "synth_inputs";
                          random_uniform (_yshape self) Tf.tf_int32 0 4 (_seed self)
                            "synth_masks" ]))))).
Proof.
  intros Hbs. unfold built, synth_train_fn. cbv zeta.
  by run_builder.
Qed.

Lemma synth_predict_fn_built count rt :
  0 < _batch_size self < 2 ^ 63 →
  - 2 ^ 63 ≤ count < 2 ^ 63 →
  built (synth_predict_fn self count) rt
  = Some (prefetched rt AUTOTUNE
            (Batch (_batch_size self) false
               (Repeat (Some count)
                  (from_tensors
                     [ random_truncated_normal [64; 64; 64; 4] Tf.tf_float32 0 1
                         (_seed self) "synth_inputs" ])))).
Proof.
  intros Hbs Hcount. unfold built, synth_predict_fn. cbv zeta.
  by run_builder.
Qed.

Lemma transform_chain_prefetched rt buffer_size ds :
  transform_chain (prefetched rt buffer_size ds) = transform_chain ds.
Proof. unfold prefetched. by destruct (filter _ _). Qed.

Lemma cache_input_prefetched rt buffer_size ds :
  cache_input (prefetched rt buffer_size ds) = cache_input ds.
Proof. unfold prefetched. by destruct (filter _ _). Qed.

Lemma source_passes_prefetched rt buffer_size ds :
  source_passes (prefetched rt buffer_size ds) = source_passes ds.
Proof. unfold prefetched. by destruct (filter _ _). Qed.
End Pipelines.

(** The example datasets are what [__init__] builds. *)
Lemma example_dataset_init :
  __init__ example_listdir "/data" 2 0 5 0 1 (Some example_params) = Ok example_dataset.
Proof. reflexivity. Qed.

Lemma short_dataset_init :
  __init__ (take 3 example_listdir) "/data" 2 4 5 0 1 (Some example_params) = Ok short_dataset.
Proof. reflexivity. Qed.

(** * Parsing a record *)

(** Reading the dictionary that [parse_single_example] returns for
    [features]. *)
Lemma parsed_example_get (tX tY tmean tstdev : Tf.tensor) :
  let parsed_example : gmap string Tf.tensor :=
    <["X" := tX]> (<["Y" := tY]> (<["mean" := tmean]> (<["stdev" := tstdev]> ∅))) in
  dict_get parsed_example "X" = Ok tX
  ∧ dict_get parsed_example "Y" = Ok tY
  ∧ dict_get parsed_example "mean" = Ok tmean
  ∧ dict_get parsed_example "stdev" = Ok tstdev.
Proof. unfold dict_get. split_and!; by simplify_map_eq. Qed.

Lemma decode_raw_scalar (s : list Byte.byte) :
  Tf.decode_raw_uint8 (Tf.Tensor [] (Tf.Strings [s])) = Ok (Tf.Tensor [Py.len s] (Tf.Uint8s s)).
Proof. unfold Tf.decode_raw_uint8. cbn. by rewrite app_nil_r. Qed.

Lemma reshape_fits (t : Tf.tensor) (s : list Z) :
  Tf.num_elements t = Tf.shape_size s → Tf.reshape t s = Ok (Tf.Tensor s (Tf.elems t)).
Proof. intros H. unfold Tf.reshape. by rewrite (proj2 (Z.eqb_eq _ _) H). Qed.

Lemma reshape_mismatch (t : Tf.tensor) (s : list Z) :
  Tf.num_elements t ≠ Tf.shape_size s →
  Tf.reshape t s
  = Raise (InvalidArgumentError (ReshapeMismatch (Tf.num_elements t) (Tf.shape_size s))).
Proof. intros H. unfold Tf.reshape. by rewrite (proj2 (Z.eqb_neq _ _) H). Qed.

(** One step of [parse]: run the binds up to the next call, and decode
    the scalar string it is given. *)
Ltac run_parse := cbn [mbind result_bind]; rewrite ?decode_raw_scalar; cbn [mbind result_bind].

Section Parse.
Variable self : Dataset.
Variable convert : Tf.tensor → Tf.tensor.
Hypothesis xshape : _xshape self = [240; 240; 155; 4].
Hypothesis yshape : _yshape self = [240; 240; 155].

Variables (ex : Tf.Example) (xb yb : list Byte.byte) (mean stdev : list Z).
Hypothesis has_X : ex !! "X" = Some (Tf.bytes_list [xb]).
Hypothesis has_Y : ex !! "Y" = Some (Tf.bytes_list [yb]).
Hypothesis has_mean : ex !! "mean" = Some (Tf.float_list mean).
Hypothesis has_stdev : ex !! "stdev" = Some (Tf.float_list stdev).
Hypothesis four_means : Py.len mean = 4.
Hypothesis four_stdevs : Py.len stdev = 4.

Lemma parse_single_example_features :
  Tf.parse_single_example ex features
  = Ok (<["X" := Tf.Tensor [] (Tf.Strings [xb])]>
          (<["Y" := Tf.Tensor [] (Tf.Strings [yb])]>
             (<["mean" := Tf.Tensor [4] (Tf.Float32s mean)]>
                (<["stdev" := Tf.Tensor [4] (Tf.Float32s stdev)]> ∅)))).
Proof.
  unfold features, Tf.parse_single_example, Tf.validate_present, Tf.collect_dense,
    Tf.parse_dense.
  rewrite has_X, has_Y, has_mean, has_stdev.
  cbn [Tf.fl_dtype Tf.fl_shape]. rewrite four_means, four_stdevs. reflexivity.
Qed.

Lemma parse_X_mismatch :
  Py.len xb ≠ 240 * 240 * 155 * 4 →
  parse self convert ex
  = Raise (InvalidArgumentError (ReshapeMismatch (Py.len xb) (240 * 240 * 155 * 4))).
Proof.
  intros Hlen. unfold parse. rewrite parse_single_example_features.
  cbn [mbind result_bind].
  destruct (parsed_example_get (Tf.Tensor [] (Tf.Strings [xb]))
              (Tf.Tensor [] (Tf.Strings [yb]))
              (Tf.Tensor [4] (Tf.Float32s mean))
              (Tf.Tensor [4] (Tf.Float32s stdev))) as (-> & _).
  run_parse. rewrite xshape.
  by rewrite (reshape_mismatch (Tf.Tensor [Py.len xb] (Tf.Uint8s xb))) by done.
Qed.

Lemma parse_well_formed :
  Py.len xb = 240 * 240 * 155 * 4 → Py.len yb = 240 * 240 * 155 →
  parse self convert ex
  = Ok (Tf.Tensor [240; 240; 155; 4] (Tf.Uint8s xb),
        Tf.Tensor [240; 240; 155] (Tf.Uint8s yb),
        Tf.Tensor [4] (Tf.Float32s mean),
        Tf.Tensor [4] (Tf.Float32s stdev)).
Proof.
  intros Hx Hy. unfold parse. rewrite parse_single_example_features.
  cbn [mbind result_bind].
  destruct (parsed_example_get (Tf.Tensor [] (Tf.Strings [xb]))
              (Tf.Tensor [] (Tf.Strings [yb]))
              (Tf.Tensor [4] (Tf.Float32s mean))
              (Tf.Tensor [4] (Tf.Float32s stdev))) as (-> & -> & -> & ->).
  run_parse. rewrite xshape, yshape.
  rewrite (reshape_fits (Tf.Tensor [Py.len xb] (Tf.Uint8s xb))) by done.
  run_parse.
  by rewrite (reshape_fits (Tf.Tensor [Py.len yb] (Tf.Uint8s yb))) by done.
Qed.

(** [parse_x] reshapes the volume only: the label bytes are carried by
    the record but never decoded. *)
Lemma parse_x_inputs_only :
  Py.len xb = 240 * 240 * 155 * 4 →
  parse_x self convert ex
  = Ok (Tf.Tensor [240; 240; 155; 4] (Tf.Uint8s xb),
        Tf.Tensor [4] (Tf.Float32s mean),
        Tf.Tensor [4] (Tf.Float32s stdev)).
Proof.
  intros Hx. unfold parse_x. rewrite parse_single_example_features.
  cbn [mbind result_bind].
  destruct (parsed_example_get (Tf.Tensor [] (Tf.Strings [xb]))
              (Tf.Tensor [] (Tf.Strings [yb]))
              (Tf.Tensor [4] (Tf.Float32s mean))
              (Tf.Tensor [4] (Tf.Float32s stdev))) as (-> & _ & -> & ->).
  run_parse. rewrite xshape.
  by rewrite (reshape_fits (Tf.Tensor [Py.len xb] (Tf.Uint8s xb))) by done.
Qed.
End Parse.

Lemma record_of_lookup xb yb mean stdev :
  record_of xb yb mean stdev !! "X" = Some (Tf.bytes_list [xb])
  ∧ record_of xb yb mean stdev !! "Y" = Some (Tf.bytes_list [yb])
  ∧ record_of xb yb mean stdev !! "mean" = Some (Tf.float_list mean)
  ∧ record_of xb yb mean stdev !! "stdev" = Some (Tf.float_list stdev).
Proof. unfold record_of. split_and!; by simplify_map_eq. Qed.

Lemma len_zeros (n : Z) : 0 ≤ n → Py.len (zeros n) = n.
Proof. intros Hn. unfold Py.len, zeros. rewrite length_replicate. lia. Qed.

(** * The claims about the pipelines *)

(** C4 (where the code departs from it). With an empty held-out split,
    [eval_fn] and [test_fn] raise the assertion "Evaluation data not
    found. Did you specify --fold flag?", but only after the source
    dataset has been constructed from the empty list of files; [train_fn]
    with no training path raises "Training data not found." before it
    constructs anything. *)
Theorem held_out_assert_after_source (self : Dataset) (rt : runtime) :
  _eval self = [] →
  eval_fn self rt
  = (after rt [TFRecordDataset []],
     Raise (AssertionError "Evaluation data not found. Did you specify --fold flag?"))
  ∧ (∀ count drop_remainder,
       test_fn self count drop_remainder rt
       = (after rt [TFRecordDataset []],
          Raise (AssertionError "Evaluation data not found. Did you specify --fold flag?")))
  ∧ (_train self = [] →
     train_fn self rt = (rt, Raise (AssertionError "Training data not found."))).
Proof.
  intros Heval. split_and!.
  - unfold eval_fn. by rewrite Heval.
  - intros count drop_remainder. unfold test_fn. by rewrite Heval.
  - intros Htrain. unfold train_fn. by rewrite Htrain.
Qed.

Lemma held_out_assert_after_source_witness :
  eval_fn short_dataset host_only
  = (Runtime (logical_devices host_only) [TFRecordDataset []],
     Raise (AssertionError "Evaluation data not found. Did you specify --fold flag?"))
  ∧ test_fn short_dataset 1 false host_only
    = (Runtime (logical_devices host_only) [TFRecordDataset []],
       Raise (AssertionError "Evaluation data not found. Did you specify --fold flag?")).
Proof.
  destruct (held_out_assert_after_source short_dataset host_only) as (He & Ht & _);
    [reflexivity|].
  split; [exact He|exact (Ht 1 false)].
Defined.

(** C5 (as amended). With at least one training path, a shard index
    that lies below the shard count, and a positive batch size (all
    within 64 bits), [train_fn] chains, in this order: the TFRecord
    source, shard by worker count and worker id, cache, shuffle with a
    buffer of [batch_size * 8] and the configured seed, repeat without
    end, parse, the transform chain (random crop to 128x128x128,
    horizontal flip when augmenting, cast to float, normalise,
    brightness correction when augmenting, one-hot of 4 classes), batch
    with the remainder dropped, prefetch. The cache holds the serialized
    records of the shard: they are parsed after the cache, on every
    pass. *)
Theorem train_fn_pipeline (self : Dataset) (rt : runtime) :
  _train self ≠ [] →
  0 ≤ _hpu_id self < _num_hpus self → _num_hpus self < 2 ^ 63 →
  0 < _batch_size self → _batch_size self * 8 < 2 ^ 63 →
  ∃ ds,
    built (train_fn self) rt = Some ds
    ∧ ds = prefetched rt AUTOTUNE
             (Batch (_batch_size self) true
                (Map (apply_transforms record_stats (train_transforms self)) AUTOTUNE
                   (Map parse_func AUTOTUNE
                      (Repeat None
                         (Shuffle (_batch_size self * 8) (_seed self)
                            (Cache
                               (Shard (_num_hpus self) (_hpu_id self)
                                  (TFRecordDataset (_train self)))))))))
    ∧ transform_chain ds
      = [RandomCrop3D (128, 128, 128)]
          ++ (if augment (params self) then [RandomHorizontalFlip] else [])
          ++ [Cast Tf.tf_float32; NormalizeImages]
          ++ (if augment (params self) then [RandomBrightnessCorrection] else [])
          ++ [OneHotLabels 4]
    ∧ cache_input ds
      = Some (Shard (_num_hpus self) (_hpu_id self) (TFRecordDataset (_train self)))
    ∧ yields_parsed (Shard (_num_hpus self) (_hpu_id self) (TFRecordDataset (_train self)))
      = false
    ∧ source_passes ds = Forever.
Proof.
  intros Htrain Hid Hnum Hbs Hbs8. eexists. split; [by apply train_fn_built|].
  split_and!; [done| | |done|].
  - rewrite transform_chain_prefetched. unfold train_transforms.
    by destruct (augment (params self)).
  - by rewrite cache_input_prefetched.
  - by rewrite source_passes_prefetched.
Qed.

Lemma train_fn_pipeline_witness :
  ∃ ds,
    built (train_fn example_dataset) host_only = Some ds
    ∧ ds = Prefetch (-1)
             (Batch 2 true
                (Map (apply_transforms record_stats
                        [ Some (RandomCrop3D (128, 128, 128));
                          Some RandomHorizontalFlip;
                          Some (Cast Tf.tf_float32);
                          Some NormalizeImages;
                          Some RandomBrightnessCorrection;
                          Some (OneHotLabels 4) ]) (-1)
                   (Map parse_func (-1)
                      (Repeat None
                         (Shuffle 16 0
                            (Cache
                               (Shard 2 1
                                  (TFRecordDataset (_train example_dataset)))))))))
    ∧ cache_input ds = Some (Shard 2 1 (TFRecordDataset (_train example_dataset)))
    ∧ source_passes ds = Forever.
Proof.
  destruct (train_fn_pipeline example_dataset host_only)
    as (ds & Hb & Hds & _ & Hc & _ & Hp);
    [discriminate|simpl; lia..|].
  exists ds. split_and!; [exact Hb|exact Hds|exact Hc|exact Hp].
Defined.

(** C5 as stated fails: the records that reach the cache of the training
    pipeline have not been parsed. *)
Lemma train_fn_caches_serialized :
  ¬ train_pipeline_as_specified example_dataset host_only.
Proof.
  intros (ds & cached & _ & -> & Hc & Hp).
  vm_compute in Hc. injection Hc as <-. discriminate Hp.
Qed.

(** C6 (as amended). With a positive batch size and a [count] within 64
    bits, the synthetic pipelines generate random tensors in place of
    records, batch with the remainder kept, and prefetch.
    [synth_train_fn] repeats without end and applies, with the constant
    statistics 0 and 1, the transform chain of [train_fn] preceded by a
    cast to [uint8]; [synth_predict_fn] repeats [count] times, without
    end when [count] is negative, and applies no transform at all. *)
Theorem synth_pipelines (self : Dataset) (rt : runtime) (count : Z) :
  0 < _batch_size self < 2 ^ 63 →
  - 2 ^ 63 ≤ count < 2 ^ 63 →
  built (synth_train_fn self) rt
  = Some (prefetched rt (_batch_size self)
            (Batch (_batch_size self) false
               (Map (apply_transforms (constant_stats 0 1)
                       (Some (Cast Tf.tf_uint8) :: train_transforms self)) 1
                  (Repeat None
                     (from_tensors
                        [ random_uniform (_xshape self) Tf.tf_int32 0 255 (_seed self)
                            "synth_inputs";
                          random_uniform (_yshape self) Tf.tf_int32 0 4 (_seed self)
                            "synth_masks" ])))))
  ∧ transform_chain <$> built (synth_train_fn self) rt
    = Some (Cast Tf.tf_uint8 :: active (train_transforms self))
  ∧ source_passes <$> built (synth_train_fn self) rt = Some Forever
  ∧ built (synth_predict_fn self count) rt
    = Some (prefetched rt AUTOTUNE
              (Batch (_batch_size self) false
                 (Repeat (Some count)
                    (from_tensors
                       [ random_truncated_normal [64; 64; 64; 4] Tf.tf_float32 0 1
                           (_seed self) "synth_inputs" ]))))
  ∧ transform_chain <$> built (synth_predict_fn self count) rt = Some []
  ∧ source_passes <$> built (synth_predict_fn self count) rt
    = Some (if count <? 0 then Forever else Times count).
Proof.
  intros Hbs Hcount.
  rewrite synth_train_fn_built, synth_predict_fn_built by done.
  cbn [fmap option_fmap option_map].
  rewrite !transform_chain_prefetched, !source_passes_prefetched.
  split_and!; [done..|].
  cbn [source_passes repeat_passes]. destruct (count <? 0); [done|].
  by rewrite Z.mul_1_r.
Qed.

Lemma synth_pipelines_witness :
  transform_chain <$> built (synth_train_fn example_dataset) host_only
  = Some [ Cast Tf.tf_uint8; RandomCrop3D (128, 128, 128); RandomHorizontalFlip;
           Cast Tf.tf_float32; NormalizeImages; RandomBrightnessCorrection;
           OneHotLabels 4 ]
  ∧ built (synth_predict_fn example_dataset 3) host_only
    = Some (Prefetch (-1)
              (Batch 2 false
                 (Repeat (Some 3)
                    (from_tensors
                       [ random_truncated_normal [64; 64; 64; 4] Tf.tf_float32 0 1 0
                           "synth_inputs" ]))))
  ∧ source_passes <$> built (synth_predict_fn example_dataset 3) host_only
    = Some (Times 3).
Proof.
  destruct (synth_pipelines example_dataset host_only 3)
    as (_ & Hchain & _ & Hbuilt & _ & Hpasses); [simpl; lia..|].
  split_and!; [exact Hchain|exact Hbuilt|exact Hpasses].
Defined.

(** C6 as stated fails: the chains differ from those of [train_fn] and
    [test_fn]. *)
Lemma synth_chains_differ :
  ¬ synth_chains_as_specified example_dataset host_only 1.
Proof. intros [Htrain _]. vm_compute in Htrain. discriminate. Qed.

(** C7 (as amended). With a non-empty held-out split, a positive batch
    size and a [count] within 64 bits, for every [drop_remainder],
    [test_fn] chains: the TFRecord source over the held-out files,
    repeat, parse the inputs only ([parse_x], which returns the volume
    and the two statistics vectors and never decodes the labels), the
    transform chain (center crop to 224x224x155, cast to float,
    normalise, pad to 224x224x160), batch with the remainder policy of
    the caller, prefetch. The held-out records are run through [count]
    times when [count] is not negative, and without end when it is. *)
Theorem test_fn_pipeline (self : Dataset) (rt : runtime) (count : Z) (drop_remainder : bool) :
  _eval self ≠ [] →
  0 < _batch_size self < 2 ^ 63 →
  - 2 ^ 63 ≤ count < 2 ^ 63 →
  ∃ ds,
    built (test_fn self count drop_remainder) rt = Some ds
    ∧ ds = prefetched rt AUTOTUNE
             (Batch (_batch_size self) drop_remainder
                (Map (apply_test_transforms test_transforms) AUTOTUNE
                   (Map parse_x_func AUTOTUNE
                      (Repeat (Some count)
                         (TFRecordDataset (_eval self))))))
    ∧ transform_chain ds
      = [ CenterCrop (224, 224, 155); Cast Tf.tf_float32; NormalizeImages;
          PadXYZ (Some (224, 224, 160)) ]
    ∧ source_passes ds = (if count <? 0 then Forever else Times count)
    ∧ (∀ convert xb yb mean stdev,
         _xshape self = [240; 240; 155; 4] →
         Py.len xb = 240 * 240 * 155 * 4 → Py.len mean = 4 → Py.len stdev = 4 →
         parse_x self convert (record_of xb yb mean stdev)
         = Ok (Tf.Tensor [240; 240; 155; 4] (Tf.Uint8s xb),
               Tf.Tensor [4] (Tf.Float32s mean),
               Tf.Tensor [4] (Tf.Float32s stdev))).
Proof.
  intros Heval Hbs Hcount. eexists. split; [by apply test_fn_built|].
  split_and!; [done|by rewrite transform_chain_prefetched| |].
  - rewrite source_passes_prefetched. cbn [source_passes repeat_passes].
    destruct (count <? 0); [done|]. by rewrite Z.mul_1_r.
  - intros convert xb yb mean stdev Hxs Hx Hm Hs.
    destruct (record_of_lookup xb yb mean stdev) as (HX & HY & Hmean & Hstdev).
    by eapply parse_x_inputs_only.
Qed.

Lemma test_fn_pipeline_witness :
  ∃ ds,
    built (test_fn example_dataset 3 true) host_only = Some ds
    ∧ ds = Prefetch (-1)
             (Batch 2 true
                (Map (apply_test_transforms test_transforms) (-1)
                   (Map parse_x_func (-1)
                      (Repeat (Some 3)
                         (TFRecordDataset ["/data/volume-0.tfrecord"])))))
    ∧ source_passes ds = Times 3.
Proof.
  destruct (test_fn_pipeline example_dataset host_only 3 true)
    as (ds & Hb & Hds & _ & Hp & _);
    [discriminate|simpl; lia..|].
  exists ds. split_and!; [exact Hb|exact Hds|exact Hp].
Defined.

(** C7 as stated fails for a negative [count]: [repeat(-1)] runs through
    the held-out records without end, not minus one times. *)
Lemma test_fn_repeats_without_end :
  ¬ test_repeats_as_specified example_dataset host_only (-1) false.
Proof. intros (ds & Hb & Hp). vm_compute in Hb. injection Hb as <-. discriminate Hp. Qed.

(** C8. Take a record whose features [X] and [Y] hold one byte string
    each and whose features [mean] and [stdev] hold four floats each.
    When [X] does not hold exactly 240*240*155*4 bytes, [parse] fails
    with the shape mismatch of [tf.reshape]. When [X] holds
    240*240*155*4 bytes and [Y] holds 240*240*155 bytes, [parse] returns
    the [uint8] tensors of shapes 240x240x155x4 and 240x240x155 and the
    two vectors of four floats. *)
Theorem parse_record (self : Dataset) (convert : Tf.tensor → Tf.tensor)
    (ex : Tf.Example) (xb yb : list Byte.byte) (mean stdev : list Z) :
  _xshape self = [240; 240; 155; 4] →
  _yshape self = [240; 240; 155] →
  ex !! "X" = Some (Tf.bytes_list [xb]) →
  ex !! "Y" = Some (Tf.bytes_list [yb]) →
  ex !! "mean" = Some (Tf.float_list mean) →
  ex !! "stdev" = Some (Tf.float_list stdev) →
  Py.len mean = 4 →
  Py.len stdev = 4 →
  (Py.len xb ≠ 240 * 240 * 155 * 4 →
   parse self convert ex
   = Raise (InvalidArgumentError (ReshapeMismatch (Py.len xb) (240 * 240 * 155 * 4))))
  ∧ (Py.len xb = 240 * 240 * 155 * 4 → Py.len yb = 240 * 240 * 155 →
     ∃ x y m s,
       parse self convert ex = Ok (x, y, m, s)
       ∧ x = Tf.Tensor [240; 240; 155; 4] (Tf.Uint8s xb)
       ∧ y = Tf.Tensor [240; 240; 155] (Tf.Uint8s yb)
       ∧ m = Tf.Tensor [4] (Tf.Float32s mean)
       ∧ s = Tf.Tensor [4] (Tf.Float32s stdev)
       ∧ Tf.dtype_of x = Tf.tf_uint8 ∧ Tf.dtype_of y = Tf.tf_uint8
       ∧ Tf.dtype_of m = Tf.tf_float32 ∧ Tf.dtype_of s = Tf.tf_float32).
Proof.
  intros Hxs Hys HX HY Hm Hs Hm4 Hs4. split.
  - by eapply parse_X_mismatch.
  - intros Hx Hy. eexists _, _, _, _. split; [by eapply parse_well_formed|done].
Qed.

Lemma parse_record_witness :
  parse example_dataset id
    (record_of [] (zeros (240 * 240 * 155)) [0; 0; 0; 0] [1065353216; 1065353216; 1065353216; 1065353216])
  = Raise (InvalidArgumentError (ReshapeMismatch 0 (240 * 240 * 155 * 4)))
  ∧ ∃ x y m s,
      parse example_dataset id
        (record_of (zeros (240 * 240 * 155 * 4)) (zeros (240 * 240 * 155))
           [0; 0; 0; 0] [1065353216; 1065353216; 1065353216; 1065353216])
      = Ok (x, y, m, s)
      ∧ Tf.shape x = [240; 240; 155; 4] ∧ Tf.shape y = [240; 240; 155]
      ∧ Tf.shape m = [4] ∧ Tf.shape s = [4].
Proof.
  split.
  - destruct (record_of_lookup [] (zeros (240 * 240 * 155)) [0; 0; 0; 0]
                [1065353216; 1065353216; 1065353216; 1065353216]) as (HX & HY & Hm & Hs).
    destruct (parse_record example_dataset id _ _ _ _ _
                eq_refl eq_refl HX HY Hm Hs eq_refl eq_refl) as [Hbad _].
    apply Hbad. unfold Py.len. simpl length. lia.
  - destruct (record_of_lookup (zeros (240 * 240 * 155 * 4)) (zeros (240 * 240 * 155))
                [0; 0; 0; 0]
                [1065353216; 1065353216; 1065353216; 1065353216]) as (HX & HY & Hm & Hs).
    destruct (parse_record example_dataset id _ _ _ _ _
                eq_refl eq_refl HX HY Hm Hs eq_refl eq_refl) as [_ Hgood].
    destruct Hgood as (x & y & m & s & Hp & Hx & Hy & Hm' & Hs' & _).
    + apply len_zeros. lia.
    + apply len_zeros. lia.
    + exists x, y, m, s. split; [exact Hp|].
      rewrite Hx, Hy, Hm', Hs'. repeat split.
Defined.

(** * The sizes of the splits *)

(** [__init__] returns only when [params] was passed. *)
Lemma init_Ok_params listdir data_dir batch_size fold_idx n_folds seed pipeline_factor
    (params : option Params) self :
  __init__ listdir data_dir batch_size fold_idx n_folds seed pipeline_factor params
  = Ok self →
  ∃ given, params = Some given.
Proof.
  unfold __init__. intros Hinit.
  destruct (cross_validation _ fold_idx n_folds) as [[train held_out]|]; [|done].
  destruct params as [given|]; [by exists given|done].
Qed.

(** C10. For every [Dataset] that [__init__] constructs, [test_size]
    and [eval_size] are the same number, the length of the one held-out
    split, and [train_size + eval_size] is the number of entries that the
    data directory listed. *)
Theorem dataset_sizes (listdir : list string) (data_dir : string)
    (batch_size fold_idx n_folds seed pipeline_factor : Z) (params : option Params)
    (self : Dataset) :
  __init__ listdir data_dir batch_size fold_idx n_folds seed pipeline_factor params
  = Ok self →
  test_size self = eval_size self
  ∧ eval_size self = Py.len (_eval self)
  ∧ train_size self + eval_size self = Py.len listdir.
Proof.
  intros Hinit. destruct (init_Ok_params _ _ _ _ _ _ _ _ _ Hinit) as [given ->].
  revert Hinit. unfold __init__. intros Hinit.
  destruct (cross_validation _ fold_idx n_folds) as [[train held_out]|] eqn:Hcv;
    [|done].
  cbn [mbind result_bind] in Hinit. injection Hinit as <-.
  split_and!; [done..|].
  apply cross_validation_Permutation, Permutation_length in Hcv.
  rewrite length_app, length_fmap in Hcv.
  unfold train_size, eval_size, Py.len. cbn. lia.
Qed.

Lemma dataset_sizes_witness :
  test_size example_dataset = eval_size example_dataset
  ∧ eval_size example_dataset = 1
  ∧ train_size example_dataset + eval_size example_dataset = 5.
Proof.
  apply (dataset_sizes example_listdir "/data" 2 0 5 0 1 (Some example_params) example_dataset).
  reflexivity.
Defined.

(** * Further properties of the fold splitter *)

(** ** The size and the start of a fold, in closed form *)

Lemma lookup_fold_sizes N n k :
  (k < n)%nat →
  fold_sizes N n !! k
  = Some (N `div` n + (if decide (k < N `mod` n)%nat then 1 else 0))%nat.
Proof.
  intros Hk. unfold fold_sizes.
  pose proof (Nat.mod_upper_bound N n) as Hr.
  destruct (decide (k < N `mod` n)%nat) as [Hlt|Hge].
  - rewrite lookup_app_l by (rewrite length_replicate; lia).
    by rewrite lookup_replicate_2.
  - rewrite lookup_app_r by (rewrite length_replicate; lia).
    rewrite length_replicate, lookup_replicate_2 by lia. f_equal. lia.
Qed.

Lemma fold_start_closed N n k :
  (k ≤ n)%nat → fold_start N n k = (k * (N `div` n) + k `min` (N `mod` n))%nat.
Proof.
  intros Hk. unfold fold_start, fold_sizes.
  rewrite take_app, !take_replicate, length_replicate.
  rewrite sum_list_with_app, !sum_list_replicate.
  destruct (decide (n = 0%nat)) as [->|Hn].
  - replace k with 0%nat by lia. simpl. lia.
  - pose proof (Nat.mod_upper_bound N n Hn). nia.
Qed.

Section FoldBounds.
Context {A : Type}.
Implicit Types x train held_out : list A.

(** The outputs of [cross_validation] by the quotient and the remainder
    of [N] by [n_folds]. *)
Lemma cross_validation_slices x (fold_idx n_folds : Z) :
  0 ≤ fold_idx < n_folds → 2 ≤ n_folds →
  ∃ a s : nat,
    Z.of_nat a = fold_idx * (Py.len x `div` n_folds)
                 + fold_idx `min` (Py.len x `mod` n_folds)
    ∧ Z.of_nat s = Py.len x `div` n_folds
                   + (if fold_idx <? Py.len x `mod` n_folds then 1 else 0)
    ∧ (a + s ≤ length x)%nat
    ∧ cross_validation x fold_idx n_folds
      = Ok (take a x ++ drop (a + s) x, take s (drop a x)).
Proof.
  intros Hf Hn.
  destruct (Z_of_nat_complete fold_idx) as [k ->]; [lia|].
  destruct (Z_of_nat_complete n_folds) as [m ->]; [lia|].
  set (N := length x).
  pose proof (lookup_fold_sizes N m k ltac:(lia)) as Hs.
  pose proof (sum_take_S _ _ _ Hs) as Hb. fold (fold_start N m (S k)) in Hb.
  fold (fold_start N m k) in Hb.
  pose proof (fold_start_closed N m k ltac:(lia)) as Ha.
  pose proof (fold_start_closed N m (S k) ltac:(lia)) as Ha'.
  pose proof (Nat.mod_upper_bound N m ltac:(lia)) as Hr.
  pose proof (Nat.div_mod_eq N m) as HN.
  exists (fold_start N m k), (N `div` m + (if decide (k < N `mod` m)%nat then 1 else 0))%nat.
  unfold Py.len. fold N. rewrite <- Nat2Z.inj_div, <- Nat2Z.inj_mod.
  split_and!.
  - rewrite Ha. lia.
  - destruct (decide (k < N `mod` m)%nat);
      [rewrite (proj2 (Z.ltb_lt _ _))|rewrite (proj2 (Z.ltb_ge _ _))]; lia.
  - rewrite <- Hb, Ha'. nia.
  - rewrite cross_validation_closed by lia. cbv zeta.
    rewrite !Nat2Z.id. fold N. rewrite Hb. do 3 f_equal. lia.
Qed.
End FoldBounds.

Section FoldFacts.
Context {A : Type}.
Implicit Types x train held_out : list A.

Lemma cross_validation_Ok_range x fold_idx n_folds train held_out :
  cross_validation x fold_idx n_folds = Ok (train, held_out) →
  0 ≤ fold_idx < n_folds ∧ 2 ≤ n_folds.
Proof.
  intros Hcv.
  destruct (decide (0 ≤ fold_idx < n_folds)) as [Hin|Hout].
  - split; [done|]. destruct (decide (n_folds = 1)) as [->|]; [|lia].
    assert (fold_idx = 0) as -> by lia.
    by rewrite cross_validation_single_fold in Hcv.
  - unfold cross_validation in Hcv.
    by rewrite index_out_of_range in Hcv by lia.
Qed.

Lemma elem_of_slice x (a s : nat) p :
  p ∈ take s (drop a x) ↔ ∃ j : nat, (a ≤ j < a + s)%nat ∧ x !! j = Some p.
Proof.
  rewrite list_elem_of_lookup. split.
  - intros [i Hi]. apply lookup_take_Some in Hi as [Hi Hlt].
    rewrite lookup_drop in Hi. exists (a + i)%nat. split; [lia|done].
  - intros (j & Hj & Hp). exists (j - a)%nat.
    apply lookup_take_Some. split; [|lia].
    rewrite lookup_drop. by replace (a + (j - a))%nat with j by lia.
Qed.

Lemma elem_of_outside x (a b : nat) p (j : nat) :
  x !! j = Some p → (j < a ∨ b ≤ j)%nat → p ∈ take a x ++ drop b x.
Proof.
  intros Hp Hj. apply elem_of_app. destruct (decide (j < a)%nat).
  - left. apply list_elem_of_lookup. exists j. by rewrite lookup_take_lt.
  - right. apply list_elem_of_lookup. exists (j - b)%nat.
    rewrite lookup_drop. by replace (b + (j - b))%nat with j by lia.
Qed.
End FoldFacts.

(** X1. The three outcomes of [cross_validation] that its arguments
    decide. When it returns, the fold index is in range and there are at
    least two folds. With an index out of range it raises the
    [ValueError] of its own check, before it looks at the input. With the
    one fold of [n_folds = 1] it raises the [ValueError] of
    [numpy.concatenate]. *)
Theorem cross_validation_outcome {A : Type} (x : list A) (fold_idx n_folds : Z) :
  (∀ train held_out,
     cross_validation x fold_idx n_folds = Ok (train, held_out) →
     0 ≤ fold_idx < n_folds ∧ 2 ≤ n_folds)
  ∧ (fold_idx < 0 ∨ n_folds ≤ fold_idx →
     cross_validation x fold_idx n_folds
     = Raise (ValueError (fold_index_message fold_idx n_folds)))
  ∧ (fold_idx = 0 → n_folds = 1 →
     cross_validation x fold_idx n_folds
     = Raise (ValueError "need at least one array to concatenate")).
Proof.
  split_and!.
  - intros train held_out Hcv. by apply (cross_validation_Ok_range _ _ _ _ _ Hcv).
  - intros Hout. unfold cross_validation. by rewrite index_out_of_range by lia.
  - intros -> ->. apply cross_validation_single_fold.
Qed.

Lemma cross_validation_outcome_witness :
  (0 ≤ 1 < 3 ∧ 2 ≤ 3)
  ∧ cross_validation ["p0"; "p1"; "p2"] 3 3
    = Raise (ValueError (fold_index_message 3 3))
  ∧ cross_validation ["p0"; "p1"; "p2"] 0 1
    = Raise (ValueError "need at least one array to concatenate").
Proof.
  split; [|split].
  - destruct (cross_validation_outcome ["p0"; "p1"; "p2"] 1 3) as (Hok & _).
    apply (Hok ["p0"; "p2"] ["p1"]). reflexivity.
  - destruct (cross_validation_outcome ["p0"; "p1"; "p2"] 3 3) as (_ & Hout & _).
    apply Hout. lia.
  - destruct (cross_validation_outcome ["p0"; "p1"; "p2"] 0 1) as (_ & _ & Hone).
    apply Hone; reflexivity.
Defined.

(** X2. Whenever [cross_validation] returns, the held-out set is one
    contiguous stretch of the input, and the training set is the input
    with that stretch cut out: both keep the order of the input. *)
Theorem cross_validation_contiguous {A : Type} (x : list A) (fold_idx n_folds : Z)
    (train held_out : list A) :
  cross_validation x fold_idx n_folds = Ok (train, held_out) →
  ∃ before after,
    x = before ++ held_out ++ after ∧ train = before ++ after.
Proof.
  intros (a & b & Hab & -> & ->)%cross_validation_Ok_inv.
  exists (take a x), (drop b x). split; [|done].
  symmetry. by apply take_middle_drop.
Qed.

Lemma cross_validation_contiguous_witness :
  ∃ before after,
    ["p0"; "p1"; "p2"; "p3"; "p4"; "p5"; "p6"] = before ++ ["p3"; "p4"] ++ after
    ∧ ["p0"; "p1"; "p2"; "p5"; "p6"] = before ++ after.
Proof.
  apply (cross_validation_contiguous ["p0"; "p1"; "p2"; "p3"; "p4"; "p5"; "p6"] 1 3).
  reflexivity.
Defined.

(** X3. With the fold index in range and at least two folds, the
    held-out set has [N div n_folds] elements, and one more when
    [fold_idx < N mod n_folds]; the training set has the other elements
    of the [N]. *)
Theorem cross_validation_sizes {A : Type} (x : list A) (fold_idx n_folds : Z) :
  0 ≤ fold_idx < n_folds → 2 ≤ n_folds →
  ∃ train held_out,
    cross_validation x fold_idx n_folds = Ok (train, held_out)
    ∧ Py.len held_out
      = Py.len x `div` n_folds + (if fold_idx <? Py.len x `mod` n_folds then 1 else 0)
    ∧ Py.len train = Py.len x - Py.len held_out.
Proof.
  intros Hf Hn.
  destruct (cross_validation_slices x fold_idx n_folds Hf Hn)
    as (a & s & _ & Hs & Has & Hcv).
  eexists _, _. split; [exact Hcv|].
  unfold Py.len in *.
  rewrite length_app, !length_take, !length_drop. split; lia.
Qed.

Lemma cross_validation_sizes_witness :
  ∃ train held_out,
    cross_validation ["p0"; "p1"; "p2"; "p3"; "p4"; "p5"; "p6"] 0 3 = Ok (train, held_out)
    ∧ Py.len held_out = 3
    ∧ Py.len train = 7 - Py.len held_out.
Proof.
  apply (cross_validation_sizes ["p0"; "p1"; "p2"; "p3"; "p4"; "p5"; "p6"] 0 3); lia.
Defined.

(** When a split has no element. *)
Lemma split_length_zero {A : Type} (x : list A) (fold_idx n_folds : Z)
    (train held_out : list A) :
  cross_validation x fold_idx n_folds = Ok (train, held_out) →
  (length held_out = 0%nat ↔ Py.len x ≤ fold_idx)
  ∧ (length train = 0%nat ↔ Py.len x = 0 ∨ (Py.len x = 1 ∧ fold_idx = 0))
  ∧ (length train + length held_out)%nat = length x.
Proof.
  intros Hcv. destruct (cross_validation_Ok_range _ _ _ _ _ Hcv) as [Hf Hn].
  destruct (cross_validation_slices x fold_idx n_folds Hf Hn)
    as (a & s & _ & Hs & Has & Hcv').
  rewrite Hcv in Hcv'. injection Hcv' as -> ->.
  rewrite length_app, !length_take, !length_drop.
  unfold Py.len in *.
  pose proof (Z.div_mod (Z.of_nat (length x)) n_folds ltac:(lia)) as Hdm.
  pose proof (Z.mod_pos_bound (Z.of_nat (length x)) n_folds ltac:(lia)) as Hr.
  pose proof (Z.div_pos (Z.of_nat (length x)) n_folds ltac:(lia) ltac:(lia)) as Hq.
  split_and!; [| |lia];
    destruct (Z.ltb_spec fold_idx (Z.of_nat (length x) `mod` n_folds)); nia.
Qed.

(** X4. Whenever [cross_validation] returns, the held-out set is empty
    exactly when the input has no more than [fold_idx] elements, and the
    training set is then the whole input; the training set is empty
    exactly when the input is empty, or has one element and
    [fold_idx = 0]. *)
Theorem empty_split_iff {A : Type} (x : list A) (fold_idx n_folds : Z)
    (train held_out : list A) :
  cross_validation x fold_idx n_folds = Ok (train, held_out) →
  (held_out = [] ↔ Py.len x ≤ fold_idx)
  ∧ (held_out = [] → train = x)
  ∧ (train = [] ↔ Py.len x = 0 ∨ (Py.len x = 1 ∧ fold_idx = 0)).
Proof.
  intros Hcv.
  destruct (split_length_zero _ _ _ _ _ Hcv) as (Hheld & Htrain & _).
  rewrite <- !length_zero_iff_nil. split_and!; [done| |done].
  rewrite length_zero_iff_nil. intros ->.
  apply cross_validation_Ok_inv in Hcv as (a & b & Hab & -> & Hnil).
  symmetry in Hnil. apply (f_equal length) in Hnil.
  rewrite length_take, length_drop in Hnil. simpl in Hnil.
  destruct (decide (length x ≤ a)%nat).
  - rewrite take_ge, drop_ge by lia. by rewrite app_nil_r.
  - replace b with a by lia. apply take_drop.
Qed.

Lemma empty_split_iff_witness :
  (([] : list string) = [] ↔ Py.len ["p0"; "p1"; "p2"] ≤ 4)
  ∧ (([] : list string) = [] → ["p0"; "p1"; "p2"] = ["p0"; "p1"; "p2"])
  ∧ (["p0"; "p1"; "p2"] = []
     ↔ Py.len ["p0"; "p1"; "p2"] = 0 ∨ (Py.len ["p0"; "p1"; "p2"] = 1 ∧ 4 = 0)).
Proof.
  apply (empty_split_iff ["p0"; "p1"; "p2"] 4 5 ["p0"; "p1"; "p2"] []).
  reflexivity.
Defined.

(** X5. Take two different fold indices over the same input and fold
    count, both returning. Every element held out by one is in the
    training set of the other; and when the elements of the input are
    pairwise distinct, the two held-out sets share nothing. *)
Theorem folds_across_indices {A : Type} (x : list A) (n_folds fold_1 fold_2 : Z)
    (train_1 held_out_1 train_2 held_out_2 : list A) :
  fold_1 ≠ fold_2 →
  cross_validation x fold_1 n_folds = Ok (train_1, held_out_1) →
  cross_validation x fold_2 n_folds = Ok (train_2, held_out_2) →
  (∀ p, p ∈ held_out_2 → p ∈ train_1)
  ∧ (NoDup x → held_out_1 ## held_out_2).
Proof.
  intros Hne Hcv1 Hcv2.
  destruct (cross_validation_Ok_range _ _ _ _ _ Hcv1) as [Hf1 Hn].
  destruct (cross_validation_Ok_range _ _ _ _ _ Hcv2) as [Hf2 _].
  destruct (cross_validation_slices x fold_1 n_folds Hf1 Hn)
    as (a1 & s1 & Ha1 & Hs1 & _ & Hcv1').
  destruct (cross_validation_slices x fold_2 n_folds Hf2 Hn)
    as (a2 & s2 & Ha2 & Hs2 & _ & Hcv2').
  rewrite Hcv1 in Hcv1'. injection Hcv1' as -> ->.
  rewrite Hcv2 in Hcv2'. injection Hcv2' as -> ->.
  assert ((a1 + s1 ≤ a2)%nat ∨ (a2 + s2 ≤ a1)%nat) as Hapart.
  { unfold Py.len in *.
    pose proof (Z.mod_pos_bound (Z.of_nat (length x)) n_folds ltac:(lia)) as Hr.
    pose proof (Z.div_pos (Z.of_nat (length x)) n_folds ltac:(lia) ltac:(lia)) as Hq.
    destruct (Z.ltb_spec fold_1 (Z.of_nat (length x) `mod` n_folds));
      destruct (Z.ltb_spec fold_2 (Z.of_nat (length x) `mod` n_folds));
      destruct (decide (fold_1 < fold_2)); [left|right|left|right|left|right|left|right];
      nia. }
  split.
  - intros p (j & Hj & Hp)%elem_of_slice.
    apply (elem_of_outside x a1 (a1 + s1) p j Hp). lia.
  - intros Hx p (j1 & Hj1 & Hp1)%elem_of_slice (j2 & Hj2 & Hp2)%elem_of_slice.
    pose proof (NoDup_lookup _ _ _ _ Hx Hp1 Hp2). lia.
Qed.

Lemma folds_across_indices_witness :
  (∀ p, p ∈ ["p5"; "p6"] → p ∈ ["p3"; "p4"; "p5"; "p6"])
  ∧ (NoDup ["p0"; "p1"; "p2"; "p3"; "p4"; "p5"; "p6"] → ["p0"; "p1"; "p2"] ## ["p5"; "p6"]).
Proof.
  apply (folds_across_indices ["p0"; "p1"; "p2"; "p3"; "p4"; "p5"; "p6"] 3 0 2
           ["p3"; "p4"; "p5"; "p6"] ["p0"; "p1"; "p2"]
           ["p0"; "p1"; "p2"; "p3"; "p4"] ["p5"; "p6"]);
    [lia|reflexivity..].
Defined.

(** * Further properties of the [Dataset] class *)

(** ** Construction *)

Lemma append_assoc (a b c : string) : (a +:+ b) +:+ c = a +:+ b +:+ c.
Proof.
  induction a as [|ch a IH]; [done|].
  change (String ch ((a +:+ b) +:+ c) = String ch (a +:+ b +:+ c)). by rewrite IH.
Qed.

(** A name that does not start with a slash is appended to a prefix
    that the directory alone fixes. *)
Lemma path_join_relative (data_dir : string) :
  ∃ base, ∀ name, String.prefix "/" name = false → path_join data_dir name = base +:+ name.
Proof.
  unfold path_join.
  destruct (String.eqb data_dir "" || String.eqb _ "/") eqn:Hsep.
  - exists data_dir. intros name ->. done.
  - exists (data_dir +:+ "/"). intros name ->. by rewrite append_assoc.
Qed.

Lemma path_join_inj (data_dir name1 name2 : string) :
  String.prefix "/" name1 = false → String.prefix "/" name2 = false →
  path_join data_dir name1 = path_join data_dir name2 → name1 = name2.
Proof.
  destruct (path_join_relative data_dir) as [base Hbase].
  intros H1 H2. rewrite !Hbase by done. apply String.app_inj.
Qed.

Lemma init_Ok_inv listdir data_dir batch_size fold_idx n_folds seed pipeline_factor
    params self :
  __init__ listdir data_dir batch_size fold_idx n_folds seed pipeline_factor (Some params)
  = Ok self →
  cross_validation (path_join data_dir <$> listdir) fold_idx n_folds
  = Ok (_train self, _eval self)
  ∧ _folders self = path_join data_dir <$> listdir
  ∧ _xshape self = [240; 240; 155; 4] ∧ _yshape self = [240; 240; 155]
  ∧ _hpu_id self = or_default (worker_id params) 0
  ∧ _num_hpus self = or_default (num_workers params) 1
  ∧ _batch_size self = batch_size ∧ _seed self = seed.
Proof.
  unfold __init__. intros Hinit.
  destruct (cross_validation _ fold_idx n_folds) as [[train held_out]|] eqn:Hcv;
    [|done].
  cbn [mbind result_bind] in Hinit. by injection Hinit as <-.
Qed.

(** X6. The outcomes of [__init__] that its arguments decide, given the
    listing of the data directory. When it returns a [Dataset], the fold
    index is in range, there are at least two folds, and [params] was
    passed. With a fold index out of range it raises the [ValueError] of
    the check of [cross_validation], and with [n_folds = 1] the
    [ValueError] of [numpy.concatenate], whatever [params] is. With the
    default [params = None] and a split that [cross_validation] returns,
    it raises the [AttributeError] of [params.worker_id]. *)
Theorem dataset_init_outcome (listdir : list string) (data_dir : string)
    (batch_size fold_idx n_folds seed pipeline_factor : Z) (params : option Params) :
  (∀ self,
     __init__ listdir data_dir batch_size fold_idx n_folds seed pipeline_factor params
     = Ok self →
     0 ≤ fold_idx < n_folds ∧ 2 ≤ n_folds ∧ ∃ given, params = Some given)
  ∧ (fold_idx < 0 ∨ n_folds ≤ fold_idx →
     __init__ listdir data_dir batch_size fold_idx n_folds seed pipeline_factor params
     = Raise (ValueError (fold_index_message fold_idx n_folds)))
  ∧ (fold_idx = 0 → n_folds = 1 →
     __init__ listdir data_dir batch_size fold_idx n_folds seed pipeline_factor params
     = Raise (ValueError "need at least one array to concatenate"))
  ∧ (∀ train held_out,
       cross_validation (path_join data_dir <$> listdir) fold_idx n_folds
       = Ok (train, held_out) →
       params = None →
       __init__ listdir data_dir batch_size fold_idx n_folds seed pipeline_factor params
       = Raise (AttributeError "'NoneType' object has no attribute 'worker_id'")).
Proof.
  unfold __init__. change (λ path, path_join data_dir path) with (path_join data_dir).
  split_and!.
  - intros self Hinit.
    destruct (cross_validation (path_join data_dir <$> listdir) fold_idx n_folds)
      as [[train held_out]|e'] eqn:Hcv; cbn [mbind result_bind] in Hinit; [|done].
    destruct (cross_validation_Ok_range _ _ _ _ _ Hcv) as [Hf Hn].
    split_and!; [lia..|]. destruct params as [given|]; [by exists given|done].
  - intros Hout. unfold cross_validation. by rewrite index_out_of_range by lia.
  - intros -> ->. by rewrite cross_validation_single_fold.
  - intros train held_out -> ->. done.
Qed.

Lemma dataset_init_outcome_witness :
  (0 ≤ 0 < 5 ∧ 2 ≤ 5 ∧ ∃ given, Some example_params = Some given)
  ∧ __init__ example_listdir "/data" 2 5 5 0 1 None
    = Raise (ValueError (fold_index_message 5 5))
  ∧ __init__ example_listdir "/data" 2 0 1 0 1 None
    = Raise (ValueError "need at least one array to concatenate")
  ∧ __init__ example_listdir "/data" 2 0 5 0 1 None
    = Raise (AttributeError "'NoneType' object has no attribute 'worker_id'").
Proof.
  split; [|split; [|split]].
  - destruct (dataset_init_outcome example_listdir "/data" 2 0 5 0 1 (Some example_params))
      as (Hok & _).
    apply (Hok example_dataset). reflexivity.
  - destruct (dataset_init_outcome example_listdir "/data" 2 5 5 0 1 None)
      as (_ & Hout & _).
    apply Hout. lia.
  - destruct (dataset_init_outcome example_listdir "/data" 2 0 1 0 1 None)
      as (_ & _ & Hone & _).
    apply Hone; reflexivity.
  - destruct (dataset_init_outcome example_listdir "/data" 2 0 5 0 1 None)
      as (_ & _ & _ & Hnone).
    eapply Hnone; reflexivity.
Defined.

(** X7. In a [Dataset] built from a listing of pairwise distinct names,
    none of which starts with a slash, no path occurs twice in a split,
    the training and the held-out split share no path, and their paths
    are exactly the listed names joined to the data directory. *)
Theorem dataset_splits_distinct (listdir : list string) (data_dir : string)
    (batch_size fold_idx n_folds seed pipeline_factor : Z) (params : option Params)
    (self : Dataset) :
  __init__ listdir data_dir batch_size fold_idx n_folds seed pipeline_factor params
  = Ok self →
  NoDup listdir →
  Forall (λ name, String.prefix "/" name = false) listdir →
  NoDup (_train self) ∧ NoDup (_eval self)
  ∧ _train self ## _eval self
  ∧ (∀ p, p ∈ _train self ∨ p ∈ _eval self
          ↔ ∃ name, name ∈ listdir ∧ p = path_join data_dir name).
Proof.
  intros Hinit. destruct (init_Ok_params _ _ _ _ _ _ _ _ _ Hinit) as [given ->].
  revert Hinit. intros (Hcv & _)%init_Ok_inv Hnames Hrel.
  apply cross_validation_Permutation in Hcv.
  assert (NoDup (path_join data_dir <$> listdir)) as Hpaths.
  { apply NoDup_fmap_2_strong; [|done].
    rewrite Forall_forall in Hrel.
    intros name1 name2 H1 H2. apply path_join_inj; auto. }
  rewrite <- Hcv in Hpaths. apply NoDup_app in Hpaths as (Ht & Hd & He).
  split_and!; [done|done|intros p Hp Hq; by apply (Hd p)|].
  intros p. rewrite <- elem_of_app, Hcv, list_elem_of_fmap.
  split; intros (name & H1 & H2); by exists name.
Qed.

Lemma dataset_splits_distinct_witness :
  NoDup (_train example_dataset) ∧ NoDup (_eval example_dataset)
  ∧ _train example_dataset ## _eval example_dataset
  ∧ (∀ p, p ∈ _train example_dataset ∨ p ∈ _eval example_dataset
          ↔ ∃ name, name ∈ example_listdir ∧ p = path_join "/data" name).
Proof.
  apply (dataset_splits_distinct example_listdir "/data" 2 0 5 0 1 (Some example_params)
           example_dataset).
  - reflexivity.
  - apply (bool_decide_unpack (NoDup example_listdir)). vm_compute. exact I.
  - apply (bool_decide_unpack (Forall _ example_listdir)). vm_compute. exact I.
Defined.

(** X8. Every constructed [Dataset] parses volumes of shape
    240x240x155x4 and labels of shape 240x240x155; its shard count is
    never zero: it is [num_workers] when that is a non-zero number and 1
    otherwise, and its shard index is [worker_id] when that is a
    non-zero number and 0 otherwise. *)
Theorem dataset_init_invariants (listdir : list string) (data_dir : string)
    (batch_size fold_idx n_folds seed pipeline_factor : Z) (params : Params)
    (self : Dataset) :
  __init__ listdir data_dir batch_size fold_idx n_folds seed pipeline_factor (Some params)
  = Ok self →
  _xshape self = [240; 240; 155; 4]
  ∧ _yshape self = [240; 240; 155]
  ∧ _num_hpus self ≠ 0
  ∧ (∀ w, num_workers params = Some w → w ≠ 0 → _num_hpus self = w)
  ∧ (num_workers params = None ∨ num_workers params = Some 0 → _num_hpus self = 1)
  ∧ (∀ w, worker_id params = Some w → _hpu_id self = w)
  ∧ (worker_id params = None → _hpu_id self = 0).
Proof.
  intros (_ & _ & Hx & Hy & -> & -> & _)%init_Ok_inv.
  split_and!; [done|done|..]; unfold or_default.
  - destruct (num_workers params) as [w|]; [|done].
    destruct (Z.eqb_spec w 0); done.
  - intros w -> Hw. by rewrite (proj2 (Z.eqb_neq _ _) Hw).
  - by intros [->| ->].
  - intros w ->. by destruct (Z.eqb_spec w 0).
  - by intros ->.
Qed.

Lemma dataset_init_invariants_witness :
  _xshape example_dataset = [240; 240; 155; 4]
  ∧ _yshape example_dataset = [240; 240; 155]
  ∧ _num_hpus example_dataset ≠ 0
  ∧ (∀ w, num_workers example_params = Some w → w ≠ 0 → _num_hpus example_dataset = w)
  ∧ (num_workers example_params = None ∨ num_workers example_params = Some 0
     → _num_hpus example_dataset = 1)
  ∧ (∀ w, worker_id example_params = Some w → _hpu_id example_dataset = w)
  ∧ (worker_id example_params = None → _hpu_id example_dataset = 0).
Proof.
  apply (dataset_init_invariants example_listdir "/data" 2 0 5 0 1 example_params
           example_dataset).
  reflexivity.
Defined.

(** ** The pipelines and the data they need *)

Section MorePipelines.
Variable self : Dataset.
Implicit Types (rt : runtime) (ds : dataset).

Lemma eval_fn_built rt :
  _eval self ≠ [] →
  0 < _batch_size self < 2 ^ 63 →
  built (eval_fn self) rt
  = Some (prefetched rt AUTOTUNE
            (Batch (_batch_size self) false
               (Map (apply_transforms record_stats eval_transforms) AUTOTUNE
                  (Map parse_func AUTOTUNE
                     (Cache (TFRecordDataset (_eval self))))))).
Proof.
  intros Heval Hbs. unfold built, eval_fn.
  rewrite bind_construct by checked.
  rewrite (assert_non_empty _ Heval), bind_assert.
  by run_builder.
Qed.

Lemma train_fn_raises_iff rt :
  (train_fn self rt).2 = Raise (AssertionError "Training data not found.")
  ↔ _train self = [].
Proof.
  split.
  - intros Hraise. destruct (decide (_train self = [])) as [|Hne]; [done|].
    exfalso. unfold train_fn in Hraise.
    rewrite (assert_non_empty _ Hne), bind_assert in Hraise.
    no_assertion Hraise.
  - intros Hnil. unfold train_fn. by rewrite Hnil.
Qed.

Lemma eval_fn_raises_iff rt :
  (eval_fn self rt).2
  = Raise (AssertionError "Evaluation data not found. Did you specify --fold flag?")
  ↔ _eval self = [].
Proof.
  split.
  - intros Hraise. destruct (decide (_eval self = [])) as [|Hne]; [done|].
    exfalso. unfold eval_fn in Hraise.
    rewrite bind_construct in Hraise by checked.
    rewrite (assert_non_empty _ Hne), bind_assert in Hraise.
    no_assertion Hraise.
  - intros Hnil. unfold eval_fn. by rewrite Hnil.
Qed.

Lemma test_fn_raises_iff count drop_remainder rt :
  (test_fn self count drop_remainder rt).2
  = Raise (AssertionError "Evaluation data not found. Did you specify --fold flag?")
  ↔ _eval self = [].
Proof.
  split.
  - intros Hraise. destruct (decide (_eval self = [])) as [|Hne]; [done|].
    exfalso. unfold test_fn in Hraise.
    rewrite bind_construct in Hraise by checked.
    rewrite (assert_non_empty _ Hne), bind_assert in Hraise.
    no_assertion Hraise.
  - intros Hnil. unfold test_fn. by rewrite Hnil.
Qed.
End MorePipelines.

(** X9. With a non-empty held-out split and a positive batch size
    within 64 bits, [eval_fn] chains: the TFRecord source over the
    held-out files, cache, parse, the transform chain (center crop to
    224x224x155, cast to float, normalise, one-hot of 4 classes, pad with
    the default shape of [PadXYZ]), batch with the remainder kept,
    prefetch. It neither shards, nor shuffles, nor repeats: the held-out
    records are run through once. *)
Theorem eval_fn_pipeline (self : Dataset) (rt : runtime) :
  _eval self ≠ [] →
  0 < _batch_size self < 2 ^ 63 →
  ∃ ds,
    built (eval_fn self) rt = Some ds
    ∧ ds = prefetched rt AUTOTUNE
             (Batch (_batch_size self) false
                (Map (apply_transforms record_stats eval_transforms) AUTOTUNE
                   (Map parse_func AUTOTUNE
                      (Cache (TFRecordDataset (_eval self))))))
    ∧ transform_chain ds
      = [ CenterCrop (224, 224, 155); Cast Tf.tf_float32; NormalizeImages;
          OneHotLabels 4; PadXYZ None ]
    ∧ cache_input ds = Some (TFRecordDataset (_eval self))
    ∧ source_passes ds = Times 1.
Proof.
  intros Heval Hbs. eexists. split; [by apply eval_fn_built|].
  split_and!; [done| | |].
  - by rewrite transform_chain_prefetched.
  - by rewrite cache_input_prefetched.
  - by rewrite source_passes_prefetched.
Qed.

Lemma eval_fn_pipeline_witness :
  ∃ ds,
    built (eval_fn example_dataset) host_only = Some ds
    ∧ ds = Prefetch (-1)
             (Batch 2 false
                (Map (apply_transforms record_stats eval_transforms) (-1)
                   (Map parse_func (-1)
                      (Cache (TFRecordDataset ["/data/volume-0.tfrecord"]))))).
Proof.
  destruct (eval_fn_pipeline example_dataset host_only) as (ds & Hb & Hds & _);
    [discriminate|simpl; lia|].
  exists ds. split; [exact Hb|exact Hds].
Defined.




(** X11. For a constructed [Dataset], which builders find their data is
    fixed by the number of entries the directory listed: [train_fn]
    raises "Training data not found." exactly when the directory is
    empty, or lists one entry and fold 0 is held out; [eval_fn] and
    [test_fn] raise "Evaluation data not found. ..." exactly when the
    directory lists no more than [fold_idx] entries. *)
Theorem pipelines_need_data (listdir : list string) (data_dir : string)
    (batch_size fold_idx n_folds seed pipeline_factor : Z) (params : option Params)
    (self : Dataset) (rt : runtime) :
  __init__ listdir data_dir batch_size fold_idx n_folds seed pipeline_factor params
  = Ok self →
  ((train_fn self rt).2 = Raise (AssertionError "Training data not found.")
   ↔ Py.len listdir = 0 ∨ (Py.len listdir = 1 ∧ fold_idx = 0))
  ∧ ((eval_fn self rt).2
     = Raise (AssertionError "Evaluation data not found. Did you specify --fold flag?")
     ↔ Py.len listdir ≤ fold_idx)
  ∧ (∀ count drop_remainder,
       (test_fn self count drop_remainder rt).2
       = Raise (AssertionError "Evaluation data not found. Did you specify --fold flag?")
       ↔ Py.len listdir ≤ fold_idx).
Proof.
  intros Hinit. destruct (init_Ok_params _ _ _ _ _ _ _ _ _ Hinit) as [given ->].
  revert Hinit. intros (Hcv & _)%init_Ok_inv.
  destruct (split_length_zero _ _ _ _ _ Hcv) as (Heval & Htrain & _).
  rewrite length_zero_iff_nil in Heval, Htrain.
  unfold Py.len in *. rewrite length_fmap in *.
  split_and!.
  - by rewrite train_fn_raises_iff.
  - by rewrite eval_fn_raises_iff.
  - intros count drop_remainder. by rewrite test_fn_raises_iff.
Qed.

Lemma pipelines_need_data_witness :
  ((train_fn short_dataset host_only).2 = Raise (AssertionError "Training data not found.")
   ↔ Py.len (take 3 example_listdir) = 0 ∨ (Py.len (take 3 example_listdir) = 1 ∧ 4 = 0))
  ∧ ((eval_fn short_dataset host_only).2
     = Raise (AssertionError "Evaluation data not found. Did you specify --fold flag?")
     ↔ Py.len (take 3 example_listdir) ≤ 4).
Proof.
  destruct (pipelines_need_data (take 3 example_listdir) "/data" 2 4 5 0 1 (Some example_params)
              short_dataset host_only) as (Ht & He & _); [reflexivity|].
  split; [exact Ht|exact He].
Defined.

(** * Further properties of record parsing *)

Section ParseOutcome.
Variable self : Dataset.
Variable convert : Tf.tensor → Tf.tensor.

(** A record that gets through [parse_single_example] got through the
    second pass. *)
Lemma parse_single_example_collect (ex : Tf.Example)
    (fs : list (string * Tf.FixedLenFeature)) (parsed_example : gmap string Tf.tensor) :
  Tf.parse_single_example ex fs = Ok parsed_example →
  Tf.collect_dense ex fs = Ok parsed_example.
Proof.
  unfold Tf.parse_single_example. by destruct (Tf.validate_present ex fs) as [[]|].
Qed.

(** Only a record with the four features in their declared form gets
    through [parse_single_example]. *)
Lemma parse_single_example_Ok_inv (ex : Tf.Example) (parsed_example : gmap string Tf.tensor) :
  Tf.parse_single_example ex features = Ok parsed_example →
  ∃ xb yb mean stdev,
    ex !! "X" = Some (Tf.bytes_list [xb])
    ∧ ex !! "Y" = Some (Tf.bytes_list [yb])
    ∧ ex !! "mean" = Some (Tf.float_list mean)
    ∧ ex !! "stdev" = Some (Tf.float_list stdev)
    ∧ Py.len mean = 4 ∧ Py.len stdev = 4.
Proof.
  intros Hparsed%parse_single_example_collect. revert Hparsed.
  unfold features, Tf.collect_dense, Tf.parse_dense.
  cbn [Tf.fl_dtype Tf.fl_shape].
  change (Tf.shape_size []) with 1. change (Tf.shape_size [4]) with 4.
  intros Hparsed.
  destruct (ex !! "X") as [[vx| |]|]; try discriminate Hparsed.
  destruct (Z.eqb_spec (Py.len vx) 1) as [Hvx|]; [|discriminate Hparsed].
  destruct (ex !! "Y") as [[vy| |]|]; try discriminate Hparsed.
  destruct (Z.eqb_spec (Py.len vy) 1) as [Hvy|]; [|discriminate Hparsed].
  destruct (ex !! "mean") as [[|mean|]|]; try discriminate Hparsed.
  destruct (Z.eqb_spec (Py.len mean) 4) as [Hmean|]; [|discriminate Hparsed].
  destruct (ex !! "stdev") as [[|stdev|]|]; try discriminate Hparsed.
  destruct (Z.eqb_spec (Py.len stdev) 4) as [Hstdev|]; [|discriminate Hparsed].
  destruct vx as [|xb [|? ?]]; try (unfold Py.len in Hvx; simpl in Hvx; lia).
  destruct vy as [|yb [|? ?]]; try (unfold Py.len in Hvy; simpl in Hvy; lia).
  by exists xb, yb, mean, stdev.
Qed.

Lemma parse_dense_Raise_inv (ex : Tf.Example) (key : string) (spec : Tf.FixedLenFeature)
    (e : exn) :
  Tf.parse_dense ex key spec = Raise e → ∃ why, e = InvalidArgumentError why.
Proof.
  unfold Tf.parse_dense. intros Hraise.
  repeat case_match; first [discriminate Hraise|injection Hraise as <-; by eexists].
Qed.

Lemma validate_present_Raise_inv (ex : Tf.Example)
    (fs : list (string * Tf.FixedLenFeature)) (e : exn) :
  Tf.validate_present ex fs = Raise e → ∃ why, e = InvalidArgumentError why.
Proof.
  induction fs as [|[key spec] fs IH]; [done|]. cbn [Tf.validate_present].
  destruct (ex !! key); [|done].
  destruct (Tf.parse_dense ex key spec) as [t|e'] eqn:Hd; cbn [mbind result_bind];
    [done|].
  intros [= <-]. by apply (parse_dense_Raise_inv ex key spec).
Qed.

Lemma collect_dense_Raise_inv (ex : Tf.Example)
    (fs : list (string * Tf.FixedLenFeature)) (e : exn) :
  Tf.collect_dense ex fs = Raise e → ∃ why, e = InvalidArgumentError why.
Proof.
  induction fs as [|[key spec] fs IH]; [done|]. cbn [Tf.collect_dense].
  destruct (Tf.parse_dense ex key spec) as [t|e'] eqn:Hd; cbn [mbind result_bind].
  - destruct (Tf.collect_dense ex fs) as [parsed|e'']; cbn [mbind result_bind]; [done|].
    intros [= <-]. by apply IH.
  - intros [= <-]. by apply (parse_dense_Raise_inv ex key spec).
Qed.

(** [parse_single_example] fails with [InvalidArgumentError] only. *)
Lemma parse_single_example_Raise_inv (ex : Tf.Example) (e : exn) :
  Tf.parse_single_example ex features = Raise e →
  ∃ why, e = InvalidArgumentError why.
Proof.
  unfold Tf.parse_single_example.
  destruct (Tf.validate_present ex features) as [[]|e'] eqn:Hv; cbn [mbind result_bind].
  - apply collect_dense_Raise_inv.
  - intros [= <-]. by apply (validate_present_Raise_inv ex features).
Qed.
End ParseOutcome.

Section WellFormedRecord.
Variable self : Dataset.
Variable convert : Tf.tensor → Tf.tensor.
Variables (ex : Tf.Example) (xb yb : list Byte.byte) (mean stdev : list Z).
Hypothesis has_X : ex !! "X" = Some (Tf.bytes_list [xb]).
Hypothesis has_Y : ex !! "Y" = Some (Tf.bytes_list [yb]).
Hypothesis has_mean : ex !! "mean" = Some (Tf.float_list mean).
Hypothesis has_stdev : ex !! "stdev" = Some (Tf.float_list stdev).
Hypothesis four_means : Py.len mean = 4.
Hypothesis four_stdevs : Py.len stdev = 4.

(** What [parse] does with a record that has the four features, for any
    shapes of the [Dataset]. *)
Lemma parse_outcome :
  parse self convert ex
  = if Py.len xb =? Tf.shape_size (_xshape self) then
      if Py.len yb =? Tf.shape_size (_yshape self) then
        Ok (Tf.Tensor (_xshape self) (Tf.Uint8s xb),
            Tf.Tensor (_yshape self) (Tf.Uint8s yb),
            Tf.Tensor [4] (Tf.Float32s mean),
            Tf.Tensor [4] (Tf.Float32s stdev))
      else Raise (InvalidArgumentError
                    (ReshapeMismatch (Py.len yb) (Tf.shape_size (_yshape self))))
    else Raise (InvalidArgumentError
                  (ReshapeMismatch (Py.len xb) (Tf.shape_size (_xshape self)))).
Proof.
  unfold parse.
  rewrite (parse_single_example_features ex xb yb mean stdev) by done.
  cbn [mbind result_bind].
  destruct (parsed_example_get (Tf.Tensor [] (Tf.Strings [xb]))
              (Tf.Tensor [] (Tf.Strings [yb]))
              (Tf.Tensor [4] (Tf.Float32s mean))
              (Tf.Tensor [4] (Tf.Float32s stdev))) as (-> & -> & -> & ->).
  run_parse.
  destruct (Z.eqb_spec (Py.len xb) (Tf.shape_size (_xshape self))) as [Hx|Hx].
  - rewrite (reshape_fits (Tf.Tensor [Py.len xb] (Tf.Uint8s xb))) by done.
    run_parse.
    destruct (Z.eqb_spec (Py.len yb) (Tf.shape_size (_yshape self))) as [Hy|Hy].
    + by rewrite (reshape_fits (Tf.Tensor [Py.len yb] (Tf.Uint8s yb))) by done.
    + by rewrite (reshape_mismatch (Tf.Tensor [Py.len yb] (Tf.Uint8s yb))) by done.
  - by rewrite (reshape_mismatch (Tf.Tensor [Py.len xb] (Tf.Uint8s xb))) by done.
Qed.

Lemma parse_x_outcome :
  parse_x self convert ex
  = if Py.len xb =? Tf.shape_size (_xshape self) then
      Ok (Tf.Tensor (_xshape self) (Tf.Uint8s xb),
          Tf.Tensor [4] (Tf.Float32s mean),
          Tf.Tensor [4] (Tf.Float32s stdev))
    else Raise (InvalidArgumentError
                  (ReshapeMismatch (Py.len xb) (Tf.shape_size (_xshape self)))).
Proof.
  unfold parse_x.
  rewrite (parse_single_example_features ex xb yb mean stdev) by done.
  cbn [mbind result_bind].
  destruct (parsed_example_get (Tf.Tensor [] (Tf.Strings [xb]))
              (Tf.Tensor [] (Tf.Strings [yb]))
              (Tf.Tensor [4] (Tf.Float32s mean))
              (Tf.Tensor [4] (Tf.Float32s stdev))) as (-> & _ & -> & ->).
  run_parse.
  destruct (Z.eqb_spec (Py.len xb) (Tf.shape_size (_xshape self))) as [Hx|Hx].
  - by rewrite (reshape_fits (Tf.Tensor [Py.len xb] (Tf.Uint8s xb))) by done.
  - by rewrite (reshape_mismatch (Tf.Tensor [Py.len xb] (Tf.Uint8s xb))) by done.
Qed.
End WellFormedRecord.

(** X12. [parse] returns only for a record whose features [X] and [Y]
    hold one byte string each, of as many bytes as the volume and the
    label shape of the [Dataset] have elements, and whose features
    [mean] and [stdev] hold four floats each; what it returns are those
    bytes and floats, unchanged, under these shapes. *)
Theorem parse_returns_only_well_formed (self : Dataset) (convert : Tf.tensor → Tf.tensor)
    (ex : Tf.Example) (x y m s : Tf.tensor) :
  parse self convert ex = Ok (x, y, m, s) →
  ∃ xb yb mean stdev,
    ex !! "X" = Some (Tf.bytes_list [xb])
    ∧ ex !! "Y" = Some (Tf.bytes_list [yb])
    ∧ ex !! "mean" = Some (Tf.float_list mean)
    ∧ ex !! "stdev" = Some (Tf.float_list stdev)
    ∧ Py.len xb = Tf.shape_size (_xshape self)
    ∧ Py.len yb = Tf.shape_size (_yshape self)
    ∧ Py.len mean = 4 ∧ Py.len stdev = 4
    ∧ x = Tf.Tensor (_xshape self) (Tf.Uint8s xb)
    ∧ y = Tf.Tensor (_yshape self) (Tf.Uint8s yb)
    ∧ m = Tf.Tensor [4] (Tf.Float32s mean)
    ∧ s = Tf.Tensor [4] (Tf.Float32s stdev).
Proof.
  intros Hparse.
  destruct (Tf.parse_single_example ex features) as [parsed_example|e] eqn:Hpe;
    [|by unfold parse in Hparse; rewrite Hpe in Hparse].
  destruct (parse_single_example_Ok_inv ex parsed_example Hpe)
    as (xb & yb & mean & stdev & HX & HY & Hm & Hs & Hm4 & Hs4).
  rewrite (parse_outcome self convert ex xb yb mean stdev) in Hparse by done.
  destruct (Z.eqb_spec (Py.len xb) (Tf.shape_size (_xshape self))); [|done].
  destruct (Z.eqb_spec (Py.len yb) (Tf.shape_size (_yshape self))); [|done].
  exists xb, yb, mean, stdev. by simplify_eq.
Qed.

Lemma parse_returns_only_well_formed_witness :
  ∃ (xb yb : list Byte.byte) (mean stdev : list Z),
    record_of (zeros (240 * 240 * 155 * 4)) (zeros (240 * 240 * 155))
      [0; 0; 0; 0] [1065353216; 1065353216; 1065353216; 1065353216] !! "X"
    = Some (Tf.bytes_list [xb])
    ∧ record_of (zeros (240 * 240 * 155 * 4)) (zeros (240 * 240 * 155))
        [0; 0; 0; 0] [1065353216; 1065353216; 1065353216; 1065353216] !! "Y"
      = Some (Tf.bytes_list [yb])
    ∧ Py.len xb = Tf.shape_size [240; 240; 155; 4]
    ∧ Py.len yb = Tf.shape_size [240; 240; 155]
    ∧ Py.len mean = 4 ∧ Py.len stdev = 4.
Proof.
  destruct (record_of_lookup (zeros (240 * 240 * 155 * 4)) (zeros (240 * 240 * 155))
              [0; 0; 0; 0]
              [1065353216; 1065353216; 1065353216; 1065353216]) as (HX & HY & Hm & Hs).
  destruct (parse_returns_only_well_formed example_dataset id
              (record_of (zeros (240 * 240 * 155 * 4)) (zeros (240 * 240 * 155))
                 [0; 0; 0; 0] [1065353216; 1065353216; 1065353216; 1065353216])
              (Tf.Tensor [240; 240; 155; 4] (Tf.Uint8s (zeros (240 * 240 * 155 * 4))))
              (Tf.Tensor [240; 240; 155] (Tf.Uint8s (zeros (240 * 240 * 155))))
              (Tf.Tensor [4] (Tf.Float32s [0; 0; 0; 0]))
              (Tf.Tensor [4]
                 (Tf.Float32s [1065353216; 1065353216; 1065353216; 1065353216])))
    as (xb & yb & mean & stdev & HX' & HY' & _ & _ & Hx & Hy & Hm4 & Hs4 & _).
  - apply (parse_well_formed example_dataset id eq_refl eq_refl _ _ _ _ _
             HX HY Hm Hs eq_refl eq_refl).
    + apply len_zeros. lia.
    + apply len_zeros. lia.
  - exists xb, yb, mean, stdev.
    split; [exact HX'|]. split; [exact HY'|]. split; [exact Hx|]. split; [exact Hy|].
    split; [exact Hm4|exact Hs4].
Defined.

(** X13. [parse_x] accepts every record that [parse] accepts, and
    returns the same volume and statistics; a record that [parse_x]
    accepts is either accepted by [parse] too, or rejected by [parse]
    for the length of its label bytes alone. *)
Theorem parse_x_agrees_with_parse (self : Dataset) (convert : Tf.tensor → Tf.tensor)
    (ex : Tf.Example) :
  (∀ x y m s,
     parse self convert ex = Ok (x, y, m, s) → parse_x self convert ex = Ok (x, m, s))
  ∧ (∀ x m s,
       parse_x self convert ex = Ok (x, m, s) →
       (∃ y, parse self convert ex = Ok (x, y, m, s))
       ∨ (∃ values,
            parse self convert ex
            = Raise (InvalidArgumentError
                       (ReshapeMismatch values (Tf.shape_size (_yshape self)))))).
Proof.
  destruct (Tf.parse_single_example ex features) as [parsed_example|e] eqn:Hpe.
  - destruct (parse_single_example_Ok_inv ex parsed_example Hpe)
      as (xb & yb & mean & stdev & HX & HY & Hm & Hs & Hm4 & Hs4).
    rewrite (parse_outcome self convert ex xb yb mean stdev) by done.
    rewrite (parse_x_outcome self convert ex xb yb mean stdev) by done.
    destruct (Z.eqb_spec (Py.len xb) (Tf.shape_size (_xshape self))); [|done].
    destruct (Z.eqb_spec (Py.len yb) (Tf.shape_size (_yshape self))).
    + split; [by intros x y m s [= <- <- <- <-]|].
      intros x m s [= <- <- <-]. left. by eexists.
    + split; [done|]. intros x m s _. right. by eexists.
  - unfold parse, parse_x. by rewrite Hpe.
Qed.

(** X14. A record that lacks one of the features [X], [Y], [mean],
    [stdev] is rejected by [parse] and by [parse_x] with the same
    [InvalidArgumentError]: [parse_x] asks for the labels too, although
    it does not return them. *)
Theorem parse_missing_feature (self : Dataset) (convert : Tf.tensor → Tf.tensor)
    (ex : Tf.Example) (key : string) :
  key ∈ ["X"; "Y"; "mean"; "stdev"] →
  ex !! key = None →
  ∃ why,
    parse self convert ex = Raise (InvalidArgumentError why)
    ∧ parse_x self convert ex = Raise (InvalidArgumentError why).
Proof.
  intros Hkey Hnone.
  destruct (Tf.parse_single_example ex features) as [parsed_example|e] eqn:Hpe.
  - destruct (parse_single_example_Ok_inv ex parsed_example Hpe)
      as (xb & yb & mean & stdev & HX & HY & Hm & Hs & _).
    repeat (apply elem_of_cons in Hkey as [->|Hkey]; [congruence|]).
    by apply elem_of_nil in Hkey.
  - destruct (parse_single_example_Raise_inv ex e Hpe) as [why ->].
    exists why. unfold parse, parse_x. by rewrite Hpe.
Qed.

Lemma parse_missing_feature_witness :
  ∃ why,
    parse example_dataset id (delete "Y" (record_of [] [] [0; 0; 0; 0] [0; 0; 0; 0]))
    = Raise (InvalidArgumentError why)
    ∧ parse_x example_dataset id (delete "Y" (record_of [] [] [0; 0; 0; 0] [0; 0; 0; 0]))
      = Raise (InvalidArgumentError why).
Proof.
  apply (parse_missing_feature example_dataset id _ "Y").
  - apply (bool_decide_unpack ("Y" ∈ ["X"; "Y"; "mean"; "stdev"])). vm_compute. exact I.
  - apply lookup_delete_eq.
Defined.

(** X15. For a [Dataset] with the shapes of [__init__] and a record that
    has the four features with a volume of 240*240*155*4 bytes: when the
    labels are not 240*240*155 bytes, [parse] fails with the shape
    mismatch of the second [tf.reshape], while [parse_x] returns the
    volume and the statistics. *)
Theorem parse_label_mismatch (self : Dataset) (convert : Tf.tensor → Tf.tensor)
    (xb yb : list Byte.byte) (mean stdev : list Z) :
  _xshape self = [240; 240; 155; 4] →
  _yshape self = [240; 240; 155] →
  Py.len xb = 240 * 240 * 155 * 4 →
  Py.len yb ≠ 240 * 240 * 155 →
  Py.len mean = 4 → Py.len stdev = 4 →
  parse self convert (record_of xb yb mean stdev)
  = Raise (InvalidArgumentError (ReshapeMismatch (Py.len yb) (240 * 240 * 155)))
  ∧ parse_x self convert (record_of xb yb mean stdev)
    = Ok (Tf.Tensor [240; 240; 155; 4] (Tf.Uint8s xb),
          Tf.Tensor [4] (Tf.Float32s mean),
          Tf.Tensor [4] (Tf.Float32s stdev)).
Proof.
  intros Hxs Hys Hx Hy Hm4 Hs4.
  destruct (record_of_lookup xb yb mean stdev) as (HX & HY & Hm & Hs).
  rewrite (parse_outcome self convert _ xb yb mean stdev) by done.
  rewrite (parse_x_outcome self convert _ xb yb mean stdev) by done.
  rewrite Hxs, Hys.
  change (Tf.shape_size [240; 240; 155; 4]) with (240 * 240 * 155 * 4).
  change (Tf.shape_size [240; 240; 155]) with (240 * 240 * 155).
  by rewrite (proj2 (Z.eqb_eq _ _) Hx), (proj2 (Z.eqb_neq _ _) Hy).
Qed.

Lemma parse_label_mismatch_witness :
  parse example_dataset id
    (record_of (zeros (240 * 240 * 155 * 4)) [] [0; 0; 0; 0] [0; 0; 0; 0])
  = Raise (InvalidArgumentError (ReshapeMismatch 0 (240 * 240 * 155)))
  ∧ parse_x example_dataset id
      (record_of (zeros (240 * 240 * 155 * 4)) [] [0; 0; 0; 0] [0; 0; 0; 0])
    = Ok (Tf.Tensor [240; 240; 155; 4] (Tf.Uint8s (zeros (240 * 240 * 155 * 4))),
          Tf.Tensor [4] (Tf.Float32s [0; 0; 0; 0]),
          Tf.Tensor [4] (Tf.Float32s [0; 0; 0; 0])).
Proof.
  apply (parse_label_mismatch example_dataset id (zeros (240 * 240 * 155 * 4)) []
           [0; 0; 0; 0] [0; 0; 0; 0] eq_refl eq_refl).
  - apply len_zeros. lia.
  - unfold Py.len. simpl length. lia.
  - reflexivity.
  - reflexivity.
Defined.

(** * Further properties of the sizes *)

(** X16. For a constructed [Dataset] over a directory of [N] entries,
    [eval_size] and [test_size] are [N div n_folds], plus one when
    [fold_idx < N mod n_folds], and [train_size] is the rest of the
    [N]. *)
Theorem dataset_sizes_closed (listdir : list string) (data_dir : string)
    (batch_size fold_idx n_folds seed pipeline_factor : Z) (params : option Params)
    (self : Dataset) :
  __init__ listdir data_dir batch_size fold_idx n_folds seed pipeline_factor params
  = Ok self →
  eval_size self
  = Py.len listdir `div` n_folds
    + (if fold_idx <? Py.len listdir `mod` n_folds then 1 else 0)
  ∧ test_size self = eval_size self
  ∧ train_size self = Py.len listdir - eval_size self.
Proof.
  intros Hinit. destruct (init_Ok_params _ _ _ _ _ _ _ _ _ Hinit) as [given ->].
  revert Hinit. intros (Hcv & _)%init_Ok_inv.
  destruct (cross_validation_Ok_range _ _ _ _ _ Hcv) as [Hf Hn].
  destruct (cross_validation_slices (path_join data_dir <$> listdir) fold_idx n_folds Hf Hn)
    as (a & s & _ & Hs & Has & Hcv').
  rewrite Hcv in Hcv'. injection Hcv' as Htrain Heval.
  unfold eval_size, test_size, train_size. rewrite Htrain, Heval.
  unfold Py.len in *. rewrite length_fmap in *.
  rewrite length_app, !length_take, !length_drop, length_fmap.
  split_and!; [lia|done|lia].
Qed.

Lemma dataset_sizes_closed_witness :
  eval_size example_dataset = 1
  ∧ test_size example_dataset = eval_size example_dataset
  ∧ train_size example_dataset = 5 - eval_size example_dataset.
Proof.
  apply (dataset_sizes_closed example_listdir "/data" 2 0 5 0 1 (Some example_params)
           example_dataset).
  reflexivity.
Defined.
